(** * A shallow embedding of the quote calculator component

    The development follows [src/components/Calculator.tsx] (the current
    component) and its older variant, which has no export and no label
    bookkeeping.  The component keeps three JavaScript objects as state
    (selected dropdown amounts, selected dropdown labels, checkbox flags),
    derives a running total from them and from the static schema, and
    builds the itemised rows of the quote.

    JavaScript values are modelled as the language defines them:
    - a [number] is an IEEE-754 binary64 value (the Standard Library's
      [spec_float] at precision 53), with [NaN], the two zeros and the
      two infinities, and addition rounded to nearest-even;
    - a [string] is a sequence of code units below 256;
    - a [Record<string, V>] object is its list of own properties in
      enumeration order (array-index keys first, ascending, then the
      other keys in insertion order).

    The schema follows the declared types; [_id] is an integer.  A read
    [s[k]] of a state object finds an own property, or else a member of
    [Object.prototype] when [k] names one, or else [undefined].  A flag
    key always contains a colon and names no such member
    ([flagKey_not_member]), so the reads of [checked] are own-property
    reads.  The reads of the dropdown objects by alias can fall through:
    [pushDropdown] and [buildSelections] take them at their declared
    types, [pushDropdownRuntime] and [buildSelectionsRuntime] take them as
    the runtime performs them, and the two agree wherever no read falls
    through ([buildSelections_at_runtime]).  The memoised [total] is
    recomputed whenever one of the state objects is replaced, so it is a
    function of the current state. *)

From Stdlib Require Import ZArith NArith List String Ascii Bool Lia.
From Stdlib Require Import Permutation.
From Stdlib Require Import Floats.SpecFloat.
From Stdlib Require Import DecimalString.
Import ListNotations.

Local Open Scope string_scope.
Local Open Scope list_scope.

(** ** JavaScript numbers *)

Module JSNumber.

Definition number : Type := spec_float.

Definition prec : Z := 53.
Definition emax : Z := 1024.

Definition NaN : number := S754_nan.
Definition zero : number := S754_zero false.
Definition negZero : number := S754_zero true.
Definition Infinity : number := S754_infinity false.

(** [a + b] on numbers. *)
Definition add (a b : number) : number := SFadd prec emax a b.

(** [ToBoolean] on a number: false for [+0], [-0] and [NaN]. *)
Definition truthy (x : number) : bool :=
  match x with
  | S754_zero _ | S754_nan => false
  | _ => true
  end.

(** [x || 0] on a number. *)
Definition orZero (x : number) : number := if truthy x then x else zero.

(** [a > b], [a < b] and [a !== b]; every comparison with [NaN] is false,
    so [NaN !== b] is true. *)
Definition gt (a b : number) : bool := SFltb b a.
Definition lt (a b : number) : bool := SFltb a b.
Definition strictNe (a b : number) : bool := negb (SFeqb a b).

Definition isNaN (x : number) : bool :=
  match x with S754_nan => true | _ => false end.

(** The number nearest to [(-1)^neg * m * 10^k], ties to even. *)
Definition ofDecimal (neg : bool) (m : N) (k : Z) : number :=
  match m with
  | N0 => S754_zero neg
  | Npos p =>
      match k with
      | Zneg d =>
          let '(mz, ez, lz) :=
            SFdiv_core_binary prec emax (Zpos p) 0 (Z.pow_pos 10 d) 0 in
          binary_round_aux prec emax neg mz ez lz
      | _ => binary_round prec emax neg (p * Z.to_pos (10 ^ k)) 0
      end
  end.

(** *** [StringToNumber], the conversion behind [Number(s)] *)

Definition isStrWhiteSpaceChar (c : ascii) : bool :=
  let n := N_of_ascii c in
  ((9 <=? n) && (n <=? 13) || (n =? 32) || (n =? 160))%N.

Fixpoint trimStart (cs : list ascii) : list ascii :=
  match cs with
  | c :: r => if isStrWhiteSpaceChar c then trimStart r else cs
  | [] => []
  end.

Definition trim (cs : list ascii) : list ascii :=
  rev (trimStart (rev (trimStart cs))).

Definition digitVal (base : N) (c : ascii) : option N :=
  let n := N_of_ascii c in
  let v :=
    if ((48 <=? n) && (n <=? 57))%N then Some (n - 48)%N
    else if ((97 <=? n) && (n <=? 102))%N then Some (n - 87)%N
    else if ((65 <=? n) && (n <=? 70))%N then Some (n - 55)%N
    else None in
  match v with
  | Some d => if (d <? base)%N then Some d else None
  | None => None
  end.

(** Reads the longest prefix of digits of [base]; returns the value read on
    top of [acc], the number of digits read on top of [cnt], and the rest. *)
Fixpoint spanDigits (base : N) (cs : list ascii) (acc : N) (cnt : nat)
  : N * nat * list ascii :=
  match cs with
  | c :: r =>
      match digitVal base c with
      | Some d => spanDigits base r (acc * base + d)%N (S cnt)
      | None => (acc, cnt, cs)
      end
  | [] => (acc, cnt, [])
  end.

Definition isChar (c : ascii) (a b : ascii) : bool :=
  Ascii.eqb c a || Ascii.eqb c b.

(** [StrUnsignedDecimalLiteral] other than [Infinity]: digits with an
    optional fraction and an optional exponent part, at least one digit
    before the exponent.  The result is [(m, k)] for the value [m * 10^k]. *)
Definition unsignedDecimal (cs : list ascii) : option (N * Z) :=
  let '(i, ni, r1) := spanDigits 10 cs 0 0 in
  let '(m, nf, r2) :=
    match r1 with
    | c :: r => if Ascii.eqb c "." then spanDigits 10 r i 0 else (i, 0%nat, r1)
    | [] => (i, 0%nat, r1)
    end in
  match (ni + nf)%nat with
  | O => None
  | _ =>
      match r2 with
      | [] => Some (m, (- Z.of_nat nf)%Z)
      | c :: r3 =>
          if isChar c "e" "E" then
            let '(eneg, r4) :=
              match r3 with
              | s :: r =>
                  if Ascii.eqb s "+" then (false, r)
                  else if Ascii.eqb s "-" then (true, r)
                  else (false, r3)
              | [] => (false, r3)
              end in
            match spanDigits 10 r4 0 0 with
            | (_, O, _) => None
            | (x, _, []) =>
                Some (m, ((if eneg then - Z.of_N x else Z.of_N x)
                          - Z.of_nat nf)%Z)
            | _ => None
            end
          else None
      end
  end.

(** [NonDecimalIntegerLiteral] after its two-character prefix. *)
Definition nonDecimal (base : N) (cs : list ascii) : number :=
  match spanDigits base cs 0 0 with
  | (_, O, _) => NaN
  | (v, _, []) => ofDecimal false v 0
  | _ => NaN
  end.

Definition signedDecimal (cs : list ascii) : number :=
  let '(neg, r) :=
    match cs with
    | s :: r =>
        if Ascii.eqb s "+" then (false, r)
        else if Ascii.eqb s "-" then (true, r)
        else (false, cs)
    | [] => (false, cs)
    end in
  if String.eqb (string_of_list_ascii r) "Infinity" then S754_infinity neg
  else
    match unsignedDecimal r with
    | Some (m, k) => ofDecimal neg m k
    | None => NaN
    end.

Definition StringToNumber (s : string) : number :=
  match trim (list_ascii_of_string s) with
  | [] => zero
  | c :: r =>
      match r with
      | p :: d =>
          if Ascii.eqb c "0" && isChar p "x" "X" then nonDecimal 16 d
          else if Ascii.eqb c "0" && isChar p "o" "O" then nonDecimal 8 d
          else if Ascii.eqb c "0" && isChar p "b" "B" then nonDecimal 2 d
          else signedDecimal (c :: r)
      | [] => signedDecimal (c :: r)
      end
  end.

End JSNumber.
Import JSNumber.

(** ** JavaScript objects used as [Record<string, V>] *)

Module JSObject.

Section WithValues.
Context {V : Type}.

(** The own properties of an object, in the order [Object.values] and the
    spread [{...s}] enumerate them. *)
Definition t : Type := list (string * V).

Definition empty : t := [].

(** [s[k]]: [None] stands for [undefined]. *)
Fixpoint get (k : string) (o : t) : option V :=
  match o with
  | [] => None
  | (k', v) :: r => if String.eqb k' k then Some v else get k r
  end.

Definition values (o : t) : list V := map snd o.

(** A key is an array index when it is the canonical decimal string of an
    integer between 0 and 2^32 - 2. *)
Definition arrayIndex (k : string) : option N :=
  match list_ascii_of_string k with
  | [] => None
  | c :: r =>
      match spanDigits 10 (c :: r) 0 0 with
      | (v, _, []) =>
          if (negb (Ascii.eqb c "0") || match r with [] => true | _ => false end)
             && (v <=? 4294967294)%N
          then Some v else None
      | _ => None
      end
  end.

Fixpoint replace (k : string) (v : V) (o : t) : t :=
  match o with
  | [] => []
  | (k', v') :: r =>
      if String.eqb k' k then (k, v) :: r else (k', v') :: replace k v r
  end.

(** A new array-index key goes before the first property that is not an
    array index or has a greater index. *)
Fixpoint insertIndex (i : N) (k : string) (v : V) (o : t) : t :=
  match o with
  | [] => [(k, v)]
  | (k', v') :: r =>
      match arrayIndex k' with
      | Some j =>
          if (j <? i)%N then (k', v') :: insertIndex i k v r
          else (k, v) :: o
      | None => (k, v) :: o
      end
  end.

(** [{...s, [k]: v}]: the copy keeps the order of [s]; an existing key keeps
    its place, a new one is added where its kind belongs. *)
Definition set (k : string) (v : V) (o : t) : t :=
  match get k o with
  | Some _ => replace k v o
  | None =>
      match arrayIndex k with
      | Some i => insertIndex i k v o
      | None => o ++ [(k, v)]
      end
  end.

End WithValues.

Arguments t : clear implicits.

End JSObject.

(** ** The schema: [Option], [Field], [CalculatorData], [CcbRoot] *)

Record Option : Type := mkOption {
  optionText : string;
  optionValue : string;
  optionHint : option string
}.

Inductive FieldType : Type := DropDown | Toggle | Checkbox | Line.

Record Field : Type := mkField {
  _id : Z;
  type : FieldType;
  label : string;
  description : option string;
  alias : option string;
  options : option (list Option)
}.

(** The JSON file is cast to the declared types without a check, and the
    component guards every use of [ccb_name] and [ccb_fields]; both are
    therefore optional here. *)
Record CalculatorData : Type := mkCalculatorData {
  ccb_name : option string;
  ccb_fields : option (list Field)
}.

Record CcbRoot : Type := mkCcbRoot {
  calculators : option (list CalculatorData)
}.

(** [ccbRoot.calculators?.[0] ?? null] *)
Definition calculator (ccbRoot : CcbRoot) : option CalculatorData :=
  match calculators ccbRoot with
  | Some cs => hd_error cs
  | None => None
  end.

(** ** Helpers *)

(** The argument of [toNum]: [v?: string | number]. *)
Inductive NumArg : Type :=
  | Undefined
  | Str (s : string)
  | Num (n : number).

(** [Number(v || 0)] for [v] a string or [undefined]: the empty string and
    [undefined] are falsy and give [Number(0)]. *)
Definition numberOrZero (v : option string) : number :=
  match v with
  | None => zero
  | Some "" => zero
  | Some s => StringToNumber s
  end.

(** [(typeof v === "number" ? v : Number(v || 0)) || 0] *)
Definition toNum (v : NumArg) : number :=
  orZero
    match v with
    | Num n => n
    | Str s => numberOrZero (Some s)
    | Undefined => numberOrZero None
    end.

Definition isCheckType (f : Field) : bool :=
  match type f with
  | Toggle | Checkbox => true
  | _ => false
  end.

(** The template literal [`${f.alias}:${o.optionText}`]; an absent alias
    prints as [undefined]. *)
Definition flagKey (f : Field) (o : Option) : string :=
  (match alias f with Some a => a | None => "undefined" end)
    ++ ":" ++ optionText o.

(** The decimal digits of an integer id: what the template literal prints
    for an id that is a safe integer (of magnitude at most 2^53).  Larger
    ids print otherwise in JavaScript; every statement below takes the
    alias of a field as it comes and none depends on its digits. *)
Definition stringOfId (n : Z) : string := NilZero.string_of_int (Z.to_int n).

(** [f.alias || `drop_${f._id}`] *)
Definition dropAlias (f : Field) : string :=
  match alias f with
  | Some "" | None => "drop_" ++ stringOfId (_id f)
  | Some a => a
  end.

(** ** Component state *)

Record State : Type := mkState {
  dropdownValues : JSObject.t number;
  dropdownLabels : JSObject.t string;
  checked : JSObject.t bool
}.

Definition initialState : State :=
  mkState JSObject.empty JSObject.empty JSObject.empty.

(** [checked[key]] used as a condition. *)
Definition isChecked (chk : JSObject.t bool) (key : string) : bool :=
  match JSObject.get key chk with
  | Some b => b
  | None => false
  end.

(** The fields the two [forEach] passes visit:
    [calculator?.ccb_fields?.forEach]. *)
Definition fieldsOf (calc : option CalculatorData) : list Field :=
  match calc with
  | Some c => match ccb_fields c with Some fs => fs | None => [] end
  | None => []
  end.

(** The inner pass over one field of [total]. *)
Definition addField (chk : JSObject.t bool) (sum : number) (f : Field) : number :=
  match options f with
  | Some os =>
      if isCheckType f then
        fold_left
          (fun sum o =>
             if isChecked chk (flagKey f o)
             then add sum (toNum (Str (optionValue o)))
             else sum)
          os sum
      else sum
  | None => sum
  end.

(** The running total. *)
Definition total (calc : option CalculatorData) (st : State) : number :=
  let sum := zero in
  let sum :=
    fold_left (fun sum v => add sum (orZero v))
              (JSObject.values (dropdownValues st)) sum in
  fold_left (addField (checked st)) (fieldsOf calc) sum.

(** ** The itemised rows of the quote *)

Record Row : Type := mkRow {
  section : string;
  item : string;
  price : number
}.

(** First pass of [buildSelections], one field: the dropdown row is pushed
    when [value && label] is truthy.  The two reads are taken at their
    declared types, a stored number and a stored string or [undefined];
    [pushDropdownRuntime] below has them with the fall-through to
    [Object.prototype]. *)
Definition pushDropdown (st : State) (rows : list Row) (f : Field) : list Row :=
  match type f with
  | DropDown =>
      let alias := dropAlias f in
      match JSObject.get alias (dropdownValues st),
            JSObject.get alias (dropdownLabels st) with
      | Some v, Some l =>
          if truthy v && negb (String.eqb l "")
          then rows ++ [mkRow (label f) l v]
          else rows
      | _, _ => rows
      end
  | _ => rows
  end.

(** Second pass, one field: one row per option whose flag is set. *)
Definition pushChecked (st : State) (rows : list Row) (f : Field) : list Row :=
  match options f with
  | Some os =>
      if isCheckType f then
        fold_left
          (fun rows o =>
             if isChecked (checked st) (flagKey f o)
             then rows ++ [mkRow (label f) (optionText o)
                                 (toNum (Str (optionValue o)))]
             else rows)
          os rows
      else rows
  | None => rows
  end.

Definition buildSelections (calc : option CalculatorData) (st : State)
  : list Row :=
  let rows := [] in
  let rows := fold_left (pushDropdown st) (fieldsOf calc) rows in
  fold_left (pushChecked st) (fieldsOf calc) rows.

(** ** Export *)

(** What the handler hands to the PDF writer between [new jsPDF] and
    [doc.save]: the title, the rows of the table and the total line.  The
    drawing calls in between are straight-line code over these data (one
    loop over [rows]), and the file name only depends on the clock. *)
Record Pdf : Type := mkPdf {
  pdfTitle : string;
  pdfRows : list Row;
  pdfTotal : number
}.

Inductive Effect : Type :=
  | Alert (message : string)
  | Save (doc : Pdf).

(** [rows.length > 0 || Object.values(dropdownValues).some((v) => v > 0)] *)
Definition somethingSelected (rows : list Row) (st : State) : bool :=
  negb (Nat.eqb (List.length rows) 0)
  || existsb (fun v => gt v zero) (JSObject.values (dropdownValues st)).

(** [calculator?.ccb_name || "Quote"] *)
Definition pdfTitleOf (calc : option CalculatorData) : string :=
  match calc with
  | Some c =>
      match ccb_name c with
      | Some "" | None => "Quote"
      | Some n => n
      end
  | None => "Quote"
  end.

(** The handler reads the state and sets none of it; it returns the state
    it leaves and the effects it performs. *)
Definition handleDownloadPdf (calc : option CalculatorData) (st : State)
  : State * list Effect :=
  let rows := buildSelections calc st in
  if negb (somethingSelected rows st) then
    (st, [Alert "Please make some selections before submitting."])
  else
    (st, [Save (mkPdf (pdfTitleOf calc) rows (total calc st))]).

(** ** Change handlers *)

(** [onChange] of the select of the Drop Down field [f]; [value] is
    [e.target.value]. *)
Definition onChangeDropdown (f : Field) (value : string) (st : State) : State :=
  let alias := dropAlias f in
  let val := numberOrZero (Some value) in
  let text :=
    match options f with
    | Some os =>
        match find (fun o => String.eqb (optionValue o) value) os with
        | Some o => optionText o
        | None => ""
        end
    | None => ""
    end in
  mkState (JSObject.set alias val (dropdownValues st))
          (JSObject.set alias text (dropdownLabels st))
          (checked st).

(** [onChange] of the checkbox of option [o] of field [f]; [b] is
    [e.target.checked]. *)
Definition onChangeCheckbox (f : Field) (o : Option) (b : bool) (st : State)
  : State :=
  mkState (dropdownValues st) (dropdownLabels st)
          (JSObject.set (flagKey f o) b (checked st)).

(** A click on a rendered checkbox: the input is controlled, it shows
    [!!checked[key]], and the change event carries the opposite. *)
Definition clickCheckbox (f : Field) (o : Option) (st : State) : State :=
  onChangeCheckbox f o (negb (isChecked (checked st) (flagKey f o))) st.

(** ** Rendering *)

Inductive Control : Type :=
  | Separator (id : Z)
  | Select (id : Z) (alias : string) (values : list string)
  | CheckGroup (id : Z) (boxes : list (string * bool)).

Inductive View : Type :=
  | NoCalculatorFound
  | Form (title : string) (shownTotal : number) (controls : list Control).

Definition optionsOrEmpty (f : Field) : list Option :=
  match options f with Some os => os | None => [] end.

Definition renderField (st : State) (f : Field) : Control :=
  match type f with
  | Line => Separator (_id f)
  | DropDown =>
      Select (_id f) (dropAlias f) ("" :: map optionValue (optionsOrEmpty f))
  | Toggle | Checkbox =>
      CheckGroup (_id f)
        (map (fun o => (flagKey f o, isChecked (checked st) (flagKey f o)))
             (optionsOrEmpty f))
  end.

(** [calculator.ccb_name || "Calculator"] *)
Definition formTitle (c : CalculatorData) : string :=
  match ccb_name c with
  | Some "" | None => "Calculator"
  | Some n => n
  end.

Definition render (calc : option CalculatorData) (st : State) : View :=
  match calc with
  | None => NoCalculatorFound
  | Some c =>
      match ccb_fields c with
      | None => NoCalculatorFound
      | Some fs => Form (formTitle c) (total calc st) (map (renderField st) fs)
      end
  end.

(** The controls a view offers, and whether it has the submit button. *)
Definition controlsOf (v : View) : list Control :=
  match v with
  | NoCalculatorFound => []
  | Form _ _ cs => cs
  end.

Definition hasSubmit (v : View) : bool :=
  match v with
  | NoCalculatorFound => false
  | Form _ _ _ => true
  end.

(** ** The older variant of the component *)

Module Older.

(** [(ccb.calculators?.[0] || {})] *)
Definition calculator (ccb : CcbRoot) : CalculatorData :=
  match calculators ccb with
  | Some cs =>
      match hd_error cs with
      | Some c => c
      | None => mkCalculatorData None None
      end
  | None => mkCalculatorData None None
  end.

Definition fieldsOf (calc : CalculatorData) : list Field :=
  match ccb_fields calc with Some fs => fs | None => [] end.

(** The inner pass adds [Number(o.optionValue || 0)] as it is. *)
Definition addField (chk : JSObject.t bool) (sum : number) (f : Field) : number :=
  match options f with
  | Some os =>
      if isCheckType f then
        fold_left
          (fun sum o =>
             if isChecked chk (flagKey f o)
             then add sum (numberOrZero (Some (optionValue o)))
             else sum)
          os sum
      else sum
  | None => sum
  end.

Definition total (calc : CalculatorData)
  (dropdownValues : JSObject.t number) (checked : JSObject.t bool) : number :=
  let sum := zero in
  let sum :=
    fold_left (fun sum v => add sum (orZero v))
              (JSObject.values dropdownValues) sum in
  fold_left (addField checked) (fieldsOf calc) sum.

End Older.

(** ** Declarative readings used by the statements *)

(** The options of one field that count: those of a Toggle or Checkbox
    field whose flag is set, in declared order. *)
Definition flaggedOf (chk : JSObject.t bool) (f : Field) : list (Field * Option) :=
  if isCheckType f then
    map (pair f)
        (filter (fun o => isChecked chk (flagKey f o)) (optionsOrEmpty f))
  else [].

Definition flaggedOptions (fs : list Field) (chk : JSObject.t bool)
  : list (Field * Option) :=
  flat_map (flaggedOf chk) fs.

(** [parseAmount] of an option. *)
Definition amountOf (fo : Field * Option) : number :=
  toNum (Str (optionValue (snd fo))).

Definition rowOf (fo : Field * Option) : Row :=
  mkRow (label (fst fo)) (optionText (snd fo)) (amountOf fo).

(** The sum of a list of numbers, accumulated left to right from [init]. *)
Definition sumFrom (init : number) (xs : list number) : number :=
  fold_left add xs init.

(** The dropdown row of one field, if it has one. *)
Definition dropdownItem (st : State) (f : Field) : list Row :=
  pushDropdown st [] f.

(** A stored dropdown selection counts as an amount other than zero: there
    is a stored number and [v || 0], what [total] adds for it, is not 0. *)
Definition nonZeroAmount (value : option number) : bool :=
  match value with
  | Some v => strictNe (orZero v) zero
  | None => false
  end.

Definition nonEmptyLabel (l : option string) : bool :=
  match l with
  | Some s => negb (String.eqb s "")
  | None => false
  end.

Definition rejected (out : State * list Effect) : Prop :=
  snd out = [Alert "Please make some selections before submitting."].

Definition saved (out : State * list Effect) : Prop :=
  exists doc, snd out = [Save doc].

(** The label the dropdown handler stores for a raw value: the text of
    the first option whose [optionValue] is that value, the empty string
    when there is none. *)
Definition matchingText (f : Field) (value : string) : string :=
  match find (fun o => String.eqb (optionValue o) value) (optionsOrEmpty f) with
  | Some o => optionText o
  | None => ""
  end.

(** What the older variant adds for a flagged option:
    [Number(o.optionValue || 0)]. *)
Definition rawAmountOf (fo : Field * Option) : number :=
  numberOrZero (Some (optionValue (snd fo))).

(** ** Well-formed numbers *)

(** A [number] of the model is a binary64 value when its mantissa and
    exponent are in range. *)
Definition isBinary64 (x : number) : bool := valid_binary prec emax x.

(** The exponent of a finite number is not below the least exponent. *)
Definition exponentOk (x : number) : bool :=
  match x with
  | S754_finite _ _ e => (emin prec emax <=? e)%Z
  | _ => true
  end.

(** What a running sum that starts at [+0] always is: not [-0], and with
    an exponent in range. *)
Definition negZeroFree (s : number) : Prop :=
  s <> negZero /\ exponentOk s = true.

(** The states the component can be in: the initial one and whatever the
    two change handlers make of it (the export handler sets nothing). *)
Inductive Reachable : State -> Prop :=
  | reach_initial : Reachable initialState
  | reach_dropdown (f : Field) (value : string) (st : State) :
      Reachable st -> Reachable (onChangeDropdown f value st)
  | reach_checkbox (f : Field) (o : Option) (b : bool) (st : State) :
      Reachable st -> Reachable (onChangeCheckbox f o b st).

(** ** Example schemas and states *)

Module Examples.

(** The schema of the specification's scenario: a dropdown [travel] and a
    checkbox group [insurance]. *)
Definition economy : Option := mkOption "Economy" "0" None.
Definition business : Option := mkOption "Business" "500" None.
Definition insurance : Option := mkOption "Insurance" "75" None.

Definition travelField : Field :=
  mkField 1 DropDown "Travel" None (Some "travel") (Some [economy; business]).
Definition extrasField : Field :=
  mkField 2 Checkbox "Extras" None (Some "insurance") (Some [insurance]).

Definition quoteCalc : option CalculatorData :=
  Some (mkCalculatorData (Some "Trip") (Some [travelField; extrasField])).

(** Three checkbox groups priced in cents. *)
Definition centsField (id : Z) (name cents : string) : Field :=
  mkField id Checkbox name None (Some name) (Some [mkOption "on" cents None]).

Definition tenCents : Field := centsField 1 "a" "0.10".
Definition twentyCents : Field := centsField 2 "b" "0.20".
Definition thirtyCents : Field := centsField 3 "c" "0.30".

Definition centsCalc : option CalculatorData :=
  Some (mkCalculatorData (Some "Cents")
          (Some [tenCents; twentyCents; thirtyCents])).
Definition centsCalcReversed : option CalculatorData :=
  Some (mkCalculatorData (Some "Cents")
          (Some [thirtyCents; twentyCents; tenCents])).

(** All three boxes ticked, starting from the empty state. *)
Definition allTicked : State :=
  onChangeCheckbox thirtyCents (mkOption "on" "0.30" None) true
    (onChangeCheckbox twentyCents (mkOption "on" "0.20" None) true
       (onChangeCheckbox tenCents (mkOption "on" "0.10" None) true
          initialState)).

(** A discount: a negative configured amount. *)
Definition loyalty : Option := mkOption "Loyalty" "-75" None.
Definition promoField : Field :=
  mkField 3 Checkbox "Discounts" None (Some "promo") (Some [loyalty]).
Definition promoCalc : option CalculatorData :=
  Some (mkCalculatorData (Some "Trip") (Some [travelField; promoField])).
Definition businessWithLoyalty : State :=
  onChangeCheckbox promoField loyalty true
    (onChangeDropdown travelField "500" initialState).

(** An option whose amount does not parse. *)
Definition mystery : Option := mkOption "Mystery" "abc" None.
Definition mysteryCheck : Field :=
  mkField 4 Checkbox "Surprises" None (Some "bad") (Some [mystery]).
Definition mysteryDrop : Field :=
  mkField 5 DropDown "Package" None (Some "pack") (Some [mystery]).
Definition mysteryRoot : CcbRoot :=
  mkCcbRoot (Some [mkCalculatorData (Some "Odd")
                     (Some [mysteryCheck; mysteryDrop])]).
Definition mysteryTicked : State :=
  onChangeCheckbox mysteryCheck mystery true initialState.
Definition mysterySelected : State :=
  onChangeDropdown mysteryDrop "abc" initialState.

(** A root whose first calculator has no [ccb_fields]. *)
Definition noFields : CalculatorData := mkCalculatorData (Some "Trip") None.
Definition noFieldsRoot : CcbRoot := mkCcbRoot (Some [noFields]).

(** Two groups without alias that both offer an option called Rush. *)
Definition rush10 : Option := mkOption "Rush" "10" None.
Definition rush20 : Option := mkOption "Rush" "20" None.
Definition printing : Field :=
  mkField 6 Toggle "Printing" None None (Some [rush10]).
Definition shipping : Field :=
  mkField 7 Checkbox "Shipping" None None (Some [rush20]).
Definition rushCalc : option CalculatorData :=
  Some (mkCalculatorData (Some "Rush") (Some [printing; shipping])).

(** The root the scenario's calculator is read from, and the state with
    Business selected and Insurance ticked. *)
Definition quoteRoot : CcbRoot :=
  mkCcbRoot (Some [mkCalculatorData (Some "Trip")
                     (Some [travelField; extrasField])]).
Definition businessInsured : State :=
  onChangeCheckbox extrasField insurance true
    (onChangeDropdown travelField "500" initialState).

(** Three checkbox groups, one of them priced 2^53. *)
Definition hugeCalc : option CalculatorData :=
  Some (mkCalculatorData (Some "Huge")
          (Some [centsField 1 "a" "9007199254740992";
                 centsField 2 "b" "1"; centsField 3 "c" "1"])).
Definition hugeCalcReversed : option CalculatorData :=
  Some (mkCalculatorData (Some "Huge")
          (Some [centsField 3 "c" "1"; centsField 2 "b" "1";
                 centsField 1 "a" "9007199254740992"])).

End Examples.

(** ** The rest of the export handler: drawing the PDF *)

(** Arithmetic of the layout. *)
Module JSArith.

Definition sub (a b : number) : number := SFsub prec emax a b.
Definition mul (a b : number) : number := SFmul prec emax a b.

(** The number an integer literal denotes. *)
Definition ofZ (z : Z) : number := binary_normalize prec emax z 0 false.
Definition ofNat (n : nat) : number := ofZ (Z.of_nat n).

End JSArith.

(** What the handler takes from outside: the page size jsPDF reports for
    the letter format, its text splitter, the host's rendering of a number
    with two fraction digits ([n.toLocaleString(undefined, {...})]), and the
    two readings of the clock ([toLocaleString] for the header,
    [toISOString] for the file name). *)
Record PdfEnv : Type := mkPdfEnv {
  pageWidth : number;
  pageHeight : number;
  splitTextToSize : string -> number -> list string;
  toLocaleFixed2 : number -> string;
  localeNow : string;
  isoNow : string
}.

(** [formatUSD] *)
Definition formatUSD (env : PdfEnv) (n : number) : string :=
  "$" ++ toLocaleFixed2 env n.

(** The first argument of [doc.text]: a string or an array of lines. *)
Inductive TextArg : Type :=
  | Single (s : string)
  | Lines (ls : list string).

(** The calls on the jsPDF document, in the order they are made;
    [alignRight] stands for the option [{ align: "right" }]. *)
Inductive DocCall : Type :=
  | SetFont (family style : string)
  | SetFontSize (size : number)
  | DrawText (t : TextArg) (x y : number) (alignRight : bool)
  | SetLineWidth (w : number)
  | DrawLine (x1 y1 x2 y2 : number)
  | AddPage
  | SaveAs (filename : string).

Definition margin : number := JSArith.ofZ 48.
Definition lineHeight : number := JSArith.ofZ 18.
Definition half : number := ofDecimal false 5 (-1).

(** The three column titles and the rule under them, drawn at [y]; the
    result is the [y] of the rule. *)
Definition columnTitles (env : PdfEnv) (y : number) : number * list DocCall :=
  let right := JSArith.sub (pageWidth env) margin in
  let y' := add y (JSArith.ofZ 12) in
  (y',
   [DrawText (Single "Section") margin y false;
    DrawText (Single "Item") (add margin (JSArith.ofZ 180)) y false;
    DrawText (Single "Price") right y true;
    SetLineWidth half;
    DrawLine margin y' right y']).

(** The header of the first page and the table header, down to the [y] of
    the first row. *)
Definition firstPage (env : PdfEnv) (calc : option CalculatorData)
  : number * list DocCall :=
  let y := margin in
  let head :=
    [SetFont "helvetica" "bold";
     SetFontSize (JSArith.ofZ 18);
     DrawText (Single (pdfTitleOf calc)) margin y false;
     SetFont "helvetica" "normal";
     SetFontSize (JSArith.ofZ 10);
     DrawText (Single ("Issued: " ++ localeNow env))
              (JSArith.sub (pageWidth env) margin) y true] in
  let y := add y (JSArith.ofZ 24) in
  let '(y, titles) := columnTitles env y in
  (add y (JSArith.ofZ 16),
   head
   ++ [SetFontSize (JSArith.ofZ 12); SetFont "helvetica" "bold"]
   ++ titles
   ++ [SetFont "helvetica" "normal"]).

(** The page break inside the loop: a new page with the table header
    again. *)
Definition pageBreak (env : PdfEnv) : number * list DocCall :=
  let y := margin in
  let '(y, titles) := columnTitles env y in
  (add y (JSArith.ofZ 16),
   [AddPage; SetFont "helvetica" "bold"; SetFontSize (JSArith.ofZ 12)]
   ++ titles
   ++ [SetFont "helvetica" "normal"]).

(** [y > pageHeight - margin - 100] *)
Definition needsPageBreak (env : PdfEnv) (y : number) : bool :=
  gt y (JSArith.sub (JSArith.sub (pageHeight env) margin) (JSArith.ofZ 100)).

(** [pageWidth - margin * 2 - 260] *)
Definition itemMaxWidth (env : PdfEnv) : number :=
  JSArith.sub
    (JSArith.sub (pageWidth env) (JSArith.mul margin (JSArith.ofZ 2)))
    (JSArith.ofZ 260).

Definition itemLinesOf (env : PdfEnv) (r : Row) : list string :=
  splitTextToSize env (item r) (itemMaxWidth env).

(** The three texts of one row at [y], and the [y] of the next row. *)
Definition rowTexts (env : PdfEnv) (y : number) (r : Row)
  : number * list DocCall :=
  let itemLines := itemLinesOf env r in
  (add y (JSArith.mul lineHeight
            (JSArith.ofNat (Nat.max 1 (List.length itemLines)))),
   [DrawText (Single (section r)) margin y false;
    DrawText (Lines itemLines) (add margin (JSArith.ofZ 180)) y false;
    DrawText (Single (formatUSD env (price r)))
             (JSArith.sub (pageWidth env) margin) y true]).

(** One round of [rows.forEach]: the state is [y] and the calls so far. *)
Definition drawRow (env : PdfEnv) (acc : number * list DocCall) (r : Row)
  : number * list DocCall :=
  let '(y, calls) := acc in
  let '(y, calls) :=
    if needsPageBreak env y
    then let '(y', brk) := pageBreak env in (y', calls ++ brk)
    else (y, calls) in
  let '(y', texts) := rowTexts env y r in
  (y', calls ++ texts).

(** [new Date().toISOString().slice(0, 19).replace(/[:T]/g, "-")] *)
Definition dashColonT (c : ascii) : ascii :=
  if Ascii.eqb c ":" || Ascii.eqb c "T" then "-"%char else c.

Fixpoint mapChars (g : ascii -> ascii) (s : string) : string :=
  match s with
  | EmptyString => EmptyString
  | String c r => String (g c) (mapChars g r)
  end.

Definition safeDate (iso : string) : string :=
  mapChars dashColonT (String.substring 0 19 iso).

Definition filenameOf (iso : string) : string :=
  "JO-NA_Quote_" ++ safeDate iso ++ ".pdf".

(** What follows the loop: the divider, the total line, the closing note
    and [doc.save]. *)
Definition footer (env : PdfEnv) (y : number) (shown : number)
  : list DocCall :=
  let right := JSArith.sub (pageWidth env) margin in
  let y := add y (JSArith.ofZ 8) in
  let y2 := add y (JSArith.ofZ 20) in
  let y3 := add y2 (JSArith.ofZ 28) in
  [SetLineWidth half;
   DrawLine margin y right y;
   SetFont "helvetica" "bold";
   SetFontSize (JSArith.ofZ 14);
   DrawText (Single "Total:") (JSArith.sub right (JSArith.ofZ 120)) y2 false;
   DrawText (Single (formatUSD env shown)) right y2 true;
   SetFont "helvetica" "normal";
   SetFontSize (JSArith.ofZ 10);
   DrawText
     (Single "Thank you! This PDF lists the options you selected with a running total.")
     margin y3 false;
   SaveAs (filenameOf (isoNow env))].

(** All the calls on the document for the rows and the total given. *)
Definition drawQuote (env : PdfEnv) (calc : option CalculatorData)
  (rows : list Row) (shown : number) : list DocCall :=
  let '(y, calls) := fold_left (drawRow env) rows (firstPage env calc) in
  calls ++ footer env y shown.

(** What the browser sees of the handler: the alert, or a new document
    and the calls on it. *)
Inductive Call : Type :=
  | WindowAlert (message : string)
  | NewPdf (unit format : string)
  | OnDoc (c : DocCall).

(** [handleDownloadPdf] with its drawing part. *)
Definition handleDownloadPdfCalls (env : PdfEnv)
  (calc : option CalculatorData) (st : State) : list Call :=
  let rows := buildSelections calc st in
  if negb (somethingSelected rows st) then
    [WindowAlert "Please make some selections before submitting."]
  else
    NewPdf "pt" "letter"
    :: map OnDoc (drawQuote env calc rows (total calc st)).

(** *** Readings of a list of calls *)

Definition docCalls (cs : list Call) : list DocCall :=
  flat_map (fun c => match c with OnDoc d => [d] | _ => [] end) cs.

(** The item texts drawn (the only texts passed as arrays of lines). *)
Definition itemTexts (ds : list DocCall) : list (list string) :=
  flat_map (fun d => match d with
                     | DrawText (Lines ls) _ _ _ => [ls]
                     | _ => []
                     end) ds.

(** The right-aligned texts drawn. *)
Definition rightTexts (ds : list DocCall) : list string :=
  flat_map (fun d => match d with
                     | DrawText (Single s) _ _ true => [s]
                     | _ => []
                     end) ds.

Definition startsWithDollar (s : string) : bool :=
  match s with
  | String c _ => Ascii.eqb c "$"
  | EmptyString => false
  end.

(** The right-aligned texts that are amounts. *)
Definition dollarTexts (ds : list DocCall) : list string :=
  filter startsWithDollar (rightTexts ds).

Definition isAddPage (d : DocCall) : bool :=
  match d with AddPage => true | _ => false end.

Definition isSave (d : DocCall) : bool :=
  match d with SaveAs _ => true | _ => false end.

Definition countPages (ds : list DocCall) : nat :=
  S (List.length (filter isAddPage ds)).

(** The calls that print the table header on a new page. *)
Definition headerAgain (env : PdfEnv) : list DocCall := snd (pageBreak env).

(** What one round of the loop appends when it starts at [y]. *)
Definition roundCalls (env : PdfEnv) (y : number) (r : Row) : list DocCall :=
  (if needsPageBreak env y then headerAgain env else [])
  ++ snd (rowTexts env
            (if needsPageBreak env y then fst (pageBreak env) else y) r).

(** Every [AddPage] in [ds] starts a copy of [hdr]. *)
Fixpoint breaksCarry (hdr : list DocCall) (ds : list DocCall) : Prop :=
  match ds with
  | [] => True
  | d :: r =>
      (isAddPage d = true -> firstn (List.length hdr) ds = hdr)
      /\ breaksCarry hdr r
  end.

Definition hasChar (c : ascii) (s : string) : bool :=
  existsb (Ascii.eqb c) (list_ascii_of_string s).

(** A row starts where no page break was due, or at the top of the table
    of a fresh page. *)
Definition rowStartOk (env : PdfEnv) (d : DocCall) : Prop :=
  match d with
  | DrawText (Lines _) _ y _ =>
      needsPageBreak env y = false \/ y = fst (pageBreak env)
  | _ => True
  end.

(** ** The degraded view of the older variant *)

(** [!calculator?.ccb_fields] of the older variant. *)
Definition olderDegraded (ccb : CcbRoot) : bool :=
  match ccb_fields (Older.calculator ccb) with
  | Some _ => false
  | None => true
  end.

(** The alias as the template literal prints it. *)
Definition printedAlias (f : Field) : string :=
  match alias f with Some a => a | None => "undefined" end.

(** The keys of an object, in enumeration order. *)
Definition keysOf {V : Type} (o : JSObject.t V) : list string := map fst o.

(** An environment for the examples: a letter page, a splitter that never
    wraps, and a fixed clock. *)
Module PdfExamples.

Definition env : PdfEnv :=
  mkPdfEnv (JSArith.ofZ 612) (JSArith.ofZ 792)
    (fun s _ => [s]) (fun _ => "0.00")
    "11/2/2026, 2:21:05 PM" "2026-11-02T14:21:05.123Z".

(** Forty ticked options in one group: more rows than one page holds. *)
Definition manyOptions : list Option :=
  map (fun n => mkOption (stringOfId (Z.of_nat n)) "1" None) (seq 0 40).
Definition manyField : Field :=
  mkField 9 Checkbox "Extras" None (Some "x") (Some manyOptions).
Definition manyCalc : option CalculatorData :=
  Some (mkCalculatorData (Some "Many") (Some [manyField])).
Definition manyTicked : State :=
  fold_left (fun st o => onChangeCheckbox manyField o true st)
            manyOptions initialState.

End PdfExamples.

(** ** Further readings used by the statements *)

(** The effect of a write on the list of keys alone. *)
Fixpoint insertKey (i : N) (k : string) (ks : list string) : list string :=
  match ks with
  | [] => [k]
  | k' :: r =>
      match JSObject.arrayIndex k' with
      | Some j => if (j <? i)%N then k' :: insertKey i k r else k :: ks
      | None => k :: ks
      end
  end.

Definition setKey (k : string) (ks : list string) : list string :=
  if existsb (String.eqb k) ks then ks
  else
    match JSObject.arrayIndex k with
    | Some i => insertKey i k ks
    | None => ks ++ [k]
    end.

Definition isLine (f : Field) : bool :=
  match type f with Line => true | _ => false end.

(** The flag key of a flagged option. *)
Definition keyOf (fo : Field * Option) : string := flagKey (fst fo) (snd fo).

Module MoreExamples.

(** Two options with the same value, and two dropdowns with one alias. *)
Definition small : Option := mkOption "Small" "10" None.
Definition compact : Option := mkOption "Compact" "10" None.
Definition sizeField : Field :=
  mkField 10 DropDown "Size" None (Some "size") (Some [small; compact]).
Definition sizeAgain : Field :=
  mkField 11 DropDown "Size (again)" None (Some "size") (Some [small]).
Definition sizeCalc : option CalculatorData :=
  Some (mkCalculatorData (Some "Sizes")
          (Some [sizeField; mkField 12 Line "" None None None; sizeAgain])).
Definition sizeCalcNoLine : option CalculatorData :=
  Some (mkCalculatorData (Some "Sizes") (Some [sizeField; sizeAgain])).

End MoreExamples.

(** ** Events, and the handlers of the older variant *)

(** A change of a select or of a checkbox. *)
Inductive Event : Type :=
  | SelectChange (f : Field) (value : string)
  | CheckboxChange (f : Field) (o : Option) (b : bool).

Definition handle (st : State) (ev : Event) : State :=
  match ev with
  | SelectChange f value => onChangeDropdown f value st
  | CheckboxChange f o b => onChangeCheckbox f o b st
  end.

Module OlderHandlers.

(** The older variant keeps the values and the flags, no labels. *)
Record State : Type := mkState {
  dropdownValues : JSObject.t number;
  checked : JSObject.t bool
}.

Definition initialState : State := mkState JSObject.empty JSObject.empty.

(** [setDropdownValues(s => ({ ...s, [alias]: Number(e.target.value || 0) }))] *)
Definition onChangeDropdown (f : Field) (value : string) (st : State) : State :=
  mkState (JSObject.set (dropAlias f) (numberOrZero (Some value))
                        (dropdownValues st))
          (checked st).

(** [setChecked(s => ({ ...s, [key]: e.target.checked }))] *)
Definition onChangeCheckbox (f : Field) (o : Option) (b : bool) (st : State)
  : State :=
  mkState (dropdownValues st) (JSObject.set (flagKey f o) b (checked st)).

Definition handle (st : State) (ev : Event) : State :=
  match ev with
  | SelectChange f value => onChangeDropdown f value st
  | CheckboxChange f o b => onChangeCheckbox f o b st
  end.

(** The total the older variant shows in a state. *)
Definition shownTotal (ccb : CcbRoot) (st : State) : number :=
  Older.total (Older.calculator ccb) (dropdownValues st) (checked st).

End OlderHandlers.

(** An object with [g] applied to every value. *)
Definition mapValues {V W : Type} (g : V -> W) (o : JSObject.t V)
  : JSObject.t W :=
  map (fun kv => (fst kv, g (snd kv))) o.

(** ** Property reads as the runtime performs them *)

(** The members every plain object inherits from [Object.prototype]; each
    of them is a function or an object, hence truthy. *)
Definition objectPrototypeMembers : list string :=
  ["constructor"; "toString"; "toLocaleString"; "valueOf";
   "hasOwnProperty"; "isPrototypeOf"; "propertyIsEnumerable"; "__proto__";
   "__defineGetter__"; "__defineSetter__";
   "__lookupGetter__"; "__lookupSetter__"].

Definition inheritsMember (k : string) : bool :=
  existsb (String.eqb k) objectPrototypeMembers.

(** The result of [s[k]] on a state object: an own property, a member
    found on the prototype, or [undefined]. *)
Inductive Read (V : Type) : Type :=
  | Own (v : V)
  | Inherited (member : string)
  | NotFound.
Arguments Own {V} v.
Arguments Inherited {V} member.
Arguments NotFound {V}.

Definition readProperty {V : Type} (k : string) (o : JSObject.t V) : Read V :=
  match JSObject.get k o with
  | Some v => Own v
  | None => if inheritsMember k then Inherited k else NotFound
  end.

(** What a row holds at run time: a value of the declared type, or a
    member of [Object.prototype] that a read fell through to. *)
Inductive Cell (V : Type) : Type :=
  | Declared (v : V)
  | Member (name : string).
Arguments Declared {V} v.
Arguments Member {V} name.

Record RuntimeRow : Type := mkRuntimeRow {
  rowSection : string;
  rowItem : Cell string;
  rowPrice : Cell number
}.

(** The operands of [value && label], when truthy. *)
Definition truthyValue (r : Read number) : option (Cell number) :=
  match r with
  | Own v => if truthy v then Some (Declared v) else None
  | Inherited m => Some (Member m)
  | NotFound => None
  end.

Definition truthyLabel (r : Read string) : option (Cell string) :=
  match r with
  | Own l => if negb (String.eqb l "") then Some (Declared l) else None
  | Inherited m => Some (Member m)
  | NotFound => None
  end.

(** [checked[key]] as a condition. *)
Definition truthyFlag (r : Read bool) : bool :=
  match r with
  | Own b => b
  | Inherited _ => true
  | NotFound => false
  end.

(** The first pass of [buildSelections] with the reads as the runtime
    performs them. *)
Definition pushDropdownRuntime (st : State) (rows : list RuntimeRow)
  (f : Field) : list RuntimeRow :=
  match type f with
  | DropDown =>
      let alias := dropAlias f in
      match truthyValue (readProperty alias (dropdownValues st)),
            truthyLabel (readProperty alias (dropdownLabels st)) with
      | Some v, Some l => rows ++ [mkRuntimeRow (label f) l v]
      | _, _ => rows
      end
  | _ => rows
  end.

(** The second pass likewise. *)
Definition pushCheckedRuntime (st : State) (rows : list RuntimeRow)
  (f : Field) : list RuntimeRow :=
  match options f with
  | Some os =>
      if isCheckType f then
        fold_left
          (fun rows o =>
             if truthyFlag (readProperty (flagKey f o) (checked st))
             then rows ++ [mkRuntimeRow (label f) (Declared (optionText o))
                             (Declared (toNum (Str (optionValue o))))]
             else rows)
          os rows
      else rows
  | None => rows
  end.

Definition buildSelectionsRuntime (calc : option CalculatorData) (st : State)
  : list RuntimeRow :=
  let rows := [] in
  let rows := fold_left (pushDropdownRuntime st) (fieldsOf calc) rows in
  fold_left (pushCheckedRuntime st) (fieldsOf calc) rows.

(** The guard of [handleDownloadPdf] on those rows. *)
Definition somethingSelectedRuntime (calc : option CalculatorData)
  (st : State) : bool :=
  negb (Nat.eqb (List.length (buildSelectionsRuntime calc st)) 0)
  || existsb (fun v => gt v zero) (JSObject.values (dropdownValues st)).

(** A row of declared type as a runtime row. *)
Definition declaredRow (r : Row) : RuntimeRow :=
  mkRuntimeRow (section r) (Declared (item r)) (Declared (price r)).

(** The dropdown reads of a field stay within the stored properties: the
    field is no Drop Down, or its alias names no inherited member, or both
    objects have the alias as an own property. *)
Definition readsOwn (st : State) (f : Field) : bool :=
  match type f with
  | DropDown =>
      negb (inheritsMember (dropAlias f))
      || (match JSObject.get (dropAlias f) (dropdownValues st) with
          | Some _ => true | None => false end
          && match JSObject.get (dropAlias f) (dropdownLabels st) with
             | Some _ => true | None => false end)
  | _ => true
  end.

(** The runtime row of a Drop Down field whose reads both fall through to
    the prototype. *)
Definition memberRow (f : Field) : RuntimeRow :=
  mkRuntimeRow (label f) (Member (dropAlias f)) (Member (dropAlias f)).

Definition fallsThrough (f : Field) : bool :=
  match type f with
  | DropDown => inheritsMember (dropAlias f)
  | _ => false
  end.

Definition dropdownItemRuntime (st : State) (f : Field) : list RuntimeRow :=
  pushDropdownRuntime st [] f.

Module EdgeExamples.

(** A dropdown whose alias names an inherited member. *)
Definition planField : Field :=
  mkField 1 DropDown "Plan" None (Some "constructor")
    (Some [mkOption "Basic" "10" None]).
Definition planCalc : option CalculatorData :=
  Some (mkCalculatorData (Some "Trip") (Some [planField])).

(** A dropdown priced 2^54 and a discount of 1. *)
Definition hugeOption : Option := mkOption "Huge" "18014398509481984" None.
Definition minusOne : Option := mkOption "Off" "-1" None.
Definition hugeField : Field :=
  mkField 1 DropDown "Size" None (Some "size") (Some [hugeOption]).
Definition offField : Field :=
  mkField 2 Checkbox "Discount" None (Some "off") (Some [minusOne]).
Definition discountCalc : option CalculatorData :=
  Some (mkCalculatorData (Some "Huge") (Some [hugeField; offField])).
Definition hugeSelected : State :=
  onChangeDropdown hugeField "18014398509481984" initialState.
Definition hugeDiscounted : State :=
  onChangeCheckbox offField minusOne true hugeSelected.

End EdgeExamples.

(** * Properties *)

(** ** Objects *)

Module JSObjectFacts.
Import JSObject.

Section Facts.
Context {V : Type}.
Implicit Types (o : JSObject.t V) (k : string) (v : V).

Lemma get_replace_same k v o :
  get k o <> None -> get k (replace k v o) = Some v.
Proof.
  induction o as [|[k' v'] r IH]; simpl; [congruence|].
  destruct (String.eqb k' k) eqn:E; simpl.
  - now rewrite String.eqb_refl.
  - now rewrite E.
Qed.

Lemma get_replace_other k k' v o :
  k <> k' -> get k' (replace k v o) = get k' o.
Proof.
  intros Hne. induction o as [|[k0 v0] r IH]; simpl; [reflexivity|].
  destruct (String.eqb k0 k) eqn:E; simpl.
  - apply String.eqb_eq in E. subst k0.
    now rewrite (proj2 (String.eqb_neq k k') Hne).
  - now rewrite IH.
Qed.

Lemma get_insertIndex_same i k v o :
  get k o = None -> get k (insertIndex i k v o) = Some v.
Proof.
  induction o as [|[k' v'] r IH]; simpl; intros H.
  - now rewrite String.eqb_refl.
  - destruct (String.eqb k' k) eqn:E; [discriminate|].
    destruct (arrayIndex k') as [j|]; [destruct (j <? i)%N|]; simpl;
      rewrite ?E, ?String.eqb_refl; auto.
Qed.

Lemma get_insertIndex_other i k k' v o :
  k <> k' -> get k' (insertIndex i k v o) = get k' o.
Proof.
  intros Hne. apply String.eqb_neq in Hne.
  induction o as [|[k0 v0] r IH]; simpl.
  - now rewrite Hne.
  - destruct (arrayIndex k0) as [j|]; [destruct (j <? i)%N|]; simpl;
      rewrite ?Hne, ?IH; reflexivity.
Qed.

Lemma get_app_same k v o :
  get k o = None -> get k (o ++ [(k, v)]) = Some v.
Proof.
  induction o as [|[k' v'] r IH]; simpl; intros H.
  - now rewrite String.eqb_refl.
  - destruct (String.eqb k' k); [discriminate | auto].
Qed.

Lemma get_app_other k k' v o :
  k <> k' -> get k' (o ++ [(k, v)]) = get k' o.
Proof.
  intros Hne. apply String.eqb_neq in Hne.
  induction o as [|[k0 v0] r IH]; simpl.
  - now rewrite Hne.
  - now rewrite IH.
Qed.

(** Reading back the key just written. *)
Lemma get_set_same k v o : get k (set k v o) = Some v.
Proof.
  unfold set. destruct (get k o) eqn:G.
  - apply get_replace_same. congruence.
  - destruct (arrayIndex k).
    + now apply get_insertIndex_same.
    + now apply get_app_same.
Qed.

(** Every other key reads as before. *)
Lemma get_set_other k k' v o : k <> k' -> get k' (set k v o) = get k' o.
Proof.
  intros Hne. unfold set. destruct (get k o).
  - now apply get_replace_other.
  - destruct (arrayIndex k).
    + now apply get_insertIndex_other.
    + now apply get_app_other.
Qed.

Lemma replace_replace k v1 v2 o :
  replace k v2 (replace k v1 o) = replace k v2 o.
Proof.
  induction o as [|[k' v'] r IH]; simpl; [reflexivity|].
  destruct (String.eqb k' k) eqn:E; simpl.
  - now rewrite String.eqb_refl.
  - now rewrite E, IH.
Qed.

Lemma replace_insertIndex i k v1 v2 o :
  get k o = None ->
  replace k v2 (insertIndex i k v1 o) = insertIndex i k v2 o.
Proof.
  induction o as [|[k' v'] r IH]; simpl; intros H.
  - now rewrite String.eqb_refl.
  - destruct (String.eqb k' k) eqn:E; [discriminate|].
    destruct (arrayIndex k') as [j|]; [destruct (j <? i)%N|]; simpl;
      rewrite ?E, ?String.eqb_refl, ?IH; auto.
Qed.

Lemma replace_app k v1 v2 o :
  get k o = None -> replace k v2 (o ++ [(k, v1)]) = o ++ [(k, v2)].
Proof.
  induction o as [|[k' v'] r IH]; simpl; intros H.
  - now rewrite String.eqb_refl.
  - destruct (String.eqb k' k); [discriminate|]. now rewrite IH.
Qed.

(** Writing a key twice leaves the object the second write alone gives,
    property order included. *)
Lemma set_set k v1 v2 o : set k v2 (set k v1 o) = set k v2 o.
Proof.
  unfold set at 1. rewrite get_set_same.
  unfold set. destruct (get k o) eqn:G.
  - apply replace_replace.
  - destruct (arrayIndex k).
    + now apply replace_insertIndex.
    + now apply replace_app.
Qed.

(** The values after a write are the value written and values that were
    there. *)
Lemma values_set k v o x :
  In x (values (set k v o)) -> x = v \/ In x (values o).
Proof.
  unfold set, values. destruct (get k o) as [v0|].
  - clear v0. induction o as [|[k' v'] r IH]; simpl; [tauto|].
    destruct (String.eqb k' k); simpl; intros [H|H]; auto.
    destruct (IH H); auto.
  - destruct (arrayIndex k) as [i|].
    + induction o as [|[k' v'] r IH]; simpl; [intros [H|[]]; auto|].
      destruct (arrayIndex k') as [j|]; [destruct (j <? i)%N|]; simpl;
        intros [H|H]; auto.
      destruct (IH H); auto.
    + rewrite map_app, in_app_iff. simpl. intros [H|[H|[]]]; auto.
Qed.

End Facts.
End JSObjectFacts.
Import JSObjectFacts.

(** ** Rounding never loses a non-zero sum *)

Module JSNumberFacts.

Local Open Scope Z_scope.

Lemma digits2_pos_size (p : positive) : digits2_pos p = Pos.size p.
Proof. induction p; simpl; congruence. Qed.

Lemma Zdigits2_log2 (m : Z) : 0 < m -> Zdigits2 m = Z.log2 m + 1.
Proof.
  destruct m as [|p|p]; try lia. intros _. simpl.
  rewrite digits2_pos_size. destruct p; simpl; lia.
Qed.

Lemma shr_1_m (mrs : shr_record) :
  0 <= shr_m mrs -> shr_m (shr_1 mrs) = Z.div2 (shr_m mrs).
Proof.
  destruct mrs as [m r s]. simpl.
  destruct m as [|[p|p|]|p]; simpl; intros H; try reflexivity; lia.
Qed.

Lemma shr_m_iter (p : positive) :
  forall mrs, 0 <= shr_m mrs ->
    shr_m (iter_pos shr_1 p mrs) = Z.shiftr (shr_m mrs) (Zpos p).
Proof.
  assert (Hdiv : forall a, 0 <= a -> 0 <= Z.div2 a)
    by (intros a Ha; rewrite Z.div2_div; apply Z.div_pos; lia).
  assert (Hsh : forall a n, 0 <= a -> 0 <= Z.shiftr a n)
    by (intros a n Ha; now apply Z.shiftr_nonneg).
  induction p as [p IH|p IH|]; intros mrs H; simpl.
  - assert (H1 : 0 <= shr_m (shr_1 mrs)) by (rewrite shr_1_m; auto).
    assert (H2 : 0 <= shr_m (iter_pos shr_1 p (shr_1 mrs)))
      by (rewrite IH; auto).
    rewrite (IH _ H2), (IH _ H1), (shr_1_m _ H).
    rewrite Z.div2_spec, !Z.shiftr_shiftr by lia. f_equal. lia.
  - assert (H1 : 0 <= shr_m (iter_pos shr_1 p mrs)) by (rewrite IH; auto).
    rewrite (IH _ H1), (IH _ H).
    rewrite !Z.shiftr_shiftr by lia. f_equal. lia.
  - rewrite (shr_1_m _ H). now rewrite Z.div2_spec.
Qed.

Lemma shr_fexp_pos (m e : Z) (l : location) :
  0 < m -> emin prec emax <= e ->
  0 < shr_m (fst (shr_fexp prec emax m e l))
  /\ e <= snd (shr_fexp prec emax m e l).
Proof.
  intros Hm He. unfold shr_fexp, shr.
  assert (Hrec : shr_m (shr_record_of_loc m l) = m)
    by (destruct l as [|[]]; reflexivity).
  destruct (fexp prec emax (Zdigits2 m + e) - e) as [|p|p] eqn:En; simpl;
    rewrite ?Hrec; try lia.
  rewrite shr_m_iter by lia. rewrite Hrec. split; [|lia].
  rewrite Zdigits2_log2 in En by lia.
  unfold fexp, emin, prec, emax in *.
  assert (H0 : Z.shiftr m (Z.pos p) <> 0).
  { rewrite Z.shiftr_eq_0_iff. intros [H|[_ H]]; lia. }
  pose proof (Z.shiftr_nonneg m (Z.pos p)). lia.
Qed.

Lemma shr_fexp_exp (m e : Z) (l : location) :
  e <= snd (shr_fexp prec emax m e l).
Proof.
  unfold shr_fexp, shr.
  destruct (fexp prec emax (Zdigits2 m + e) - e); simpl; lia.
Qed.

Lemma round_nearest_even_pos (m : Z) (l : location) :
  0 < m -> 0 < round_nearest_even m l.
Proof.
  intros H. destruct l as [|[]]; simpl; try lia.
  destruct (Z.even m); lia.
Qed.

Lemma binary_round_aux_exponentOk (sx : bool) (mx ex : Z) (lx : location) :
  emin prec emax <= ex ->
  exponentOk (binary_round_aux prec emax sx mx ex lx) = true.
Proof.
  intros He. unfold binary_round_aux.
  pose proof (shr_fexp_exp mx ex lx) as H1.
  destruct (shr_fexp prec emax mx ex lx) as [mrs' e']. simpl in H1.
  pose proof (shr_fexp_exp
                (round_nearest_even (shr_m mrs') (loc_of_shr_record mrs'))
                e' loc_Exact) as H2.
  destruct (shr_fexp prec emax _ e' loc_Exact) as [mrs'' e'']. simpl in H2.
  destruct (shr_m mrs''); try reflexivity.
  destruct (e'' <=? emax - prec); [|reflexivity].
  simpl. apply Z.leb_le. lia.
Qed.

Lemma binary_round_aux_not_zero (sx : bool) (mx ex : Z) (lx : location)
  (s : bool) :
  0 < mx -> emin prec emax <= ex ->
  binary_round_aux prec emax sx mx ex lx <> S754_zero s.
Proof.
  intros Hm He. unfold binary_round_aux.
  pose proof (shr_fexp_pos mx ex lx Hm He) as [H1 H1'].
  destruct (shr_fexp prec emax mx ex lx) as [mrs' e']. simpl in H1, H1'.
  pose proof (shr_fexp_pos
                (round_nearest_even (shr_m mrs') (loc_of_shr_record mrs'))
                e' loc_Exact (round_nearest_even_pos _ _ H1)) as [H2 _]; [lia|].
  destruct (shr_fexp prec emax _ e' loc_Exact) as [mrs'' e'']. simpl in H2.
  destruct (shr_m mrs''); try lia.
  destruct (e'' <=? emax - prec); discriminate.
Qed.

Lemma binary_round_ok (sx : bool) (mx : positive) (ex : Z) :
  emin prec emax <= ex ->
  (forall s, binary_round prec emax sx mx ex <> S754_zero s)
  /\ exponentOk (binary_round prec emax sx mx ex) = true.
Proof.
  intros He. unfold binary_round.
  assert (Hz : emin prec emax
               <= snd (shl_align mx ex
                         (fexp prec emax (Z.pos (digits2_pos mx) + ex)))).
  { unfold shl_align, fexp.
    destruct (Z.max _ _ - ex) eqn:E; simpl; lia. }
  destruct (shl_align mx ex _) as [mz ez]. simpl in Hz. split.
  - intros s. apply binary_round_aux_not_zero; lia.
  - now apply binary_round_aux_exponentOk.
Qed.

Lemma add_negZeroFree (s y : number) :
  negZeroFree s -> exponentOk y = true -> negZeroFree (add s y).
Proof.
  intros [Hs Es] Ey. unfold add, SFadd.
  destruct s as [[]|[]| |sx mx ex]; destruct y as [[]|[]| |sy my ey];
    try (split; [discriminate | reflexivity]);
    try (split; [discriminate | assumption]);
    try (now elim Hs).
  simpl in Es, Ey. apply Z.leb_le in Es, Ey.
  unfold binary_normalize.
  destruct (_ + _) as [|p|p] eqn:E.
  - split; [discriminate | reflexivity].
  - destruct (binary_round_ok false p (Z.min ex ey)) as [H1 H2]; [lia|].
    split; [apply H1 | exact H2].
  - destruct (binary_round_ok true p (Z.min ex ey)) as [H1 H2]; [lia|].
    split; [apply H1 | exact H2].
Qed.

Lemma add_negZero (s : number) :
  s <> negZero -> add s negZero = add s zero.
Proof.
  intros H. destruct s as [[]|[]| |sx mx ex]; try reflexivity. now elim H.
Qed.

Lemma isBinary64_exponentOk (x : number) :
  isBinary64 x = true -> exponentOk x = true.
Proof.
  destruct x as [s|s| |s m e]; try reflexivity. simpl.
  unfold bounded, canonical_mantissa, fexp.
  intros H. apply andb_true_iff in H. destruct H as [H _].
  apply Z.eqb_eq in H. apply Z.leb_le. lia.
Qed.

Lemma ofDecimal_exponentOk (neg : bool) (m : N) (k : Z) :
  exponentOk (ofDecimal neg m k) = true.
Proof.
  unfold ofDecimal. destruct m as [|p]; [reflexivity|].
  assert (H0 : emin prec emax <= 0) by (unfold emin, prec, emax; lia).
  destruct k as [|d|d]; try (now apply binary_round_ok).
  unfold SFdiv_core_binary.
  destruct (Z.div_eucl _ _) as [q r].
  apply binary_round_aux_exponentOk. unfold fexp. lia.
Qed.

Lemma StringToNumber_exponentOk (s : string) :
  exponentOk (StringToNumber s) = true.
Proof.
  assert (Hn : forall b cs, exponentOk (nonDecimal b cs) = true).
  { intros b cs. unfold nonDecimal.
    destruct (spanDigits b cs 0 0) as [[v [|n]] [|c r]];
      try reflexivity. apply ofDecimal_exponentOk. }
  assert (Hs : forall cs, exponentOk (signedDecimal cs) = true).
  { intros cs. unfold signedDecimal.
    destruct (match cs with [] => _ | _ => _ end) as [neg r].
    destruct (String.eqb _ _); [reflexivity|].
    destruct (unsignedDecimal r) as [[m k]|]; [|reflexivity].
    apply ofDecimal_exponentOk. }
  unfold StringToNumber.
  destruct (trim _) as [|c [|p d]]; auto.
  repeat match goal with |- context [if ?b then _ else _] => destruct b end;
    auto.
Qed.

End JSNumberFacts.
Import JSNumberFacts.

(** ** Numbers *)

Lemma truthy_orZero (x : number) : truthy x = true -> orZero x = x.
Proof. unfold orZero. now intros ->. Qed.

Lemma orZero_falsy (x : number) : truthy x = false -> orZero x = zero.
Proof. unfold orZero. now intros ->. Qed.

Lemma nonZeroAmount_truthy (v : number) : nonZeroAmount (Some v) = truthy v.
Proof. now destruct v as [[]|[]| |[] m e]. Qed.

(** Apart from [NaN], counting as an amount other than zero is [v !== 0]. *)
Lemma nonZeroAmount_strictNe (v : number) :
  isNaN v = false -> nonZeroAmount (Some v) = strictNe v zero.
Proof. now destruct v as [[]|[]| |[] m e]. Qed.

Lemma lt_zero_truthy (x : number) : lt x zero = true -> truthy x = true.
Proof. now destruct x as [[]|[]| |[] m e]. Qed.

Lemma gt_zero_truthy (x : number) : gt x zero = true -> truthy x = true.
Proof. now destruct x as [[]|[]| |[] m e]. Qed.

Lemma add_NaN_l (x : number) : add NaN x = NaN.
Proof. reflexivity. Qed.

Lemma add_NaN_r (x : number) : add x NaN = NaN.
Proof. now destruct x as [[]|[]| |[] m e]. Qed.

Lemma sumFrom_NaN (xs : list number) : sumFrom NaN xs = NaN.
Proof.
  unfold sumFrom. induction xs as [|x xs IH]; [reflexivity | exact IH].
Qed.

Lemma sumFrom_app (init : number) (xs ys : list number) :
  sumFrom init (xs ++ ys) = sumFrom (sumFrom init xs) ys.
Proof. unfold sumFrom. apply fold_left_app. Qed.

(** ** The two passes, read declaratively *)

Lemma fold_add_map {A : Type} (g : A -> number) (l : list A) (init : number) :
  fold_left (fun sum a => add sum (g a)) l init = sumFrom init (map g l).
Proof.
  unfold sumFrom. revert init.
  induction l as [|a l IH]; simpl; intros init; [reflexivity | apply IH].
Qed.

Lemma addField_flagged (chk : JSObject.t bool) (f : Field) (sum : number) :
  addField chk sum f = sumFrom sum (map amountOf (flaggedOf chk f)).
Proof.
  unfold addField, flaggedOf, optionsOrEmpty.
  destruct (options f) as [os|]; [|now destruct (isCheckType f)].
  destruct (isCheckType f); [|reflexivity].
  unfold sumFrom. revert sum.
  induction os as [|o os IH]; simpl; intros sum; [reflexivity|].
  destruct (isChecked chk (flagKey f o)); simpl; apply IH.
Qed.

Lemma fold_addField_flagged (chk : JSObject.t bool) (fs : list Field)
  (sum : number) :
  fold_left (addField chk) fs sum
  = sumFrom sum (map amountOf (flaggedOptions fs chk)).
Proof.
  unfold flaggedOptions. revert sum.
  induction fs as [|f fs IH]; simpl; intros sum; [reflexivity|].
  now rewrite IH, addField_flagged, map_app, sumFrom_app.
Qed.

(** The total is one left-to-right sum: the dropdown amounts in the
    enumeration order of the object, then the flagged amounts in schema
    order. *)
Lemma total_sum (calc : option CalculatorData) (st : State) :
  total calc st
  = sumFrom zero
      (map orZero (JSObject.values (dropdownValues st))
       ++ map amountOf (flaggedOptions (fieldsOf calc) (checked st))).
Proof.
  unfold total. now rewrite fold_addField_flagged, fold_add_map, sumFrom_app.
Qed.

Lemma pushDropdown_app (st : State) (rows : list Row) (f : Field) :
  pushDropdown st rows f = rows ++ dropdownItem st f.
Proof.
  unfold dropdownItem, pushDropdown.
  destruct (type f); rewrite ?app_nil_r; try reflexivity.
  destruct (JSObject.get _ (dropdownValues st)) as [v|];
    [|now rewrite app_nil_r].
  destruct (JSObject.get _ (dropdownLabels st)) as [l|];
    [|now rewrite app_nil_r].
  destruct (truthy v && negb (String.eqb l "")); [reflexivity|].
  now rewrite app_nil_r.
Qed.

Lemma pushChecked_app (st : State) (rows : list Row) (f : Field) :
  pushChecked st rows f = rows ++ map rowOf (flaggedOf (checked st) f).
Proof.
  unfold pushChecked, flaggedOf, optionsOrEmpty.
  destruct (options f) as [os|];
    [|destruct (isCheckType f); now rewrite app_nil_r].
  destruct (isCheckType f); [|now rewrite app_nil_r].
  revert rows.
  induction os as [|o os IH]; simpl; intros rows; [now rewrite app_nil_r|].
  destruct (isChecked (checked st) (flagKey f o)); simpl; [|apply IH].
  rewrite IH, <- app_assoc. reflexivity.
Qed.

Lemma fold_push_flat_map {A B : Type} (push : list B -> A -> list B)
  (one : A -> list B) :
  (forall rows a, push rows a = rows ++ one a) ->
  forall (l : list A) (rows : list B),
    fold_left push l rows = rows ++ flat_map one l.
Proof.
  intros Hpush l. induction l as [|a l IH]; simpl; intros rows.
  - now rewrite app_nil_r.
  - now rewrite IH, Hpush, <- app_assoc.
Qed.

(** The rows are the dropdown rows in schema order followed by one row per
    flagged option in schema order. *)
Lemma buildSelections_rows (calc : option CalculatorData) (st : State) :
  buildSelections calc st
  = flat_map (dropdownItem st) (fieldsOf calc)
    ++ map rowOf (flaggedOptions (fieldsOf calc) (checked st)).
Proof.
  unfold buildSelections, flaggedOptions.
  rewrite (fold_push_flat_map (pushChecked st)
             (fun f => map rowOf (flaggedOf (checked st) f))
             (pushChecked_app st)).
  rewrite (fold_push_flat_map (pushDropdown st) (dropdownItem st)
             (pushDropdown_app st)).
  simpl. f_equal.
  induction (fieldsOf calc) as [|f fs IH]; simpl; [reflexivity|].
  now rewrite map_app, IH.
Qed.

(** Reordering the fields reorders the flagged options, nothing more. *)
Lemma flaggedOptions_Permutation (fs fs' : list Field) (chk : JSObject.t bool) :
  Permutation fs fs' ->
  Permutation (flaggedOptions fs chk) (flaggedOptions fs' chk).
Proof. intros H. unfold flaggedOptions. now apply Permutation_flat_map. Qed.

(** ** The running total *)

(** C1 (as amended).  The total is the sum, accumulated left to right from
    0, of [v || 0] for every stored dropdown value followed by the parsed
    amount of every flagged option of every Toggle or Checkbox field, in
    schema order; a schema with the same fields in another order adds the
    same amounts, in another order. *)
Theorem total_is_ordered_sum (calc calc' : option CalculatorData) (st : State) :
  Permutation (fieldsOf calc) (fieldsOf calc') ->
  total calc st
  = sumFrom zero
      (map orZero (JSObject.values (dropdownValues st))
       ++ map amountOf (flaggedOptions (fieldsOf calc) (checked st)))
  /\ Permutation
       (map amountOf (flaggedOptions (fieldsOf calc) (checked st)))
       (map amountOf (flaggedOptions (fieldsOf calc') (checked st))).
Proof.
  intros Hperm. split.
  - apply total_sum.
  - apply Permutation_map. now apply flaggedOptions_Permutation.
Qed.

Lemma total_is_ordered_sum_witness :
  total Examples.centsCalc Examples.allTicked
  = sumFrom zero
      (map orZero (JSObject.values (dropdownValues Examples.allTicked))
       ++ map amountOf
            (flaggedOptions (fieldsOf Examples.centsCalc)
               (checked Examples.allTicked)))
  /\ Permutation
       (map amountOf
          (flaggedOptions (fieldsOf Examples.centsCalc)
             (checked Examples.allTicked)))
       (map amountOf
          (flaggedOptions (fieldsOf Examples.centsCalcReversed)
             (checked Examples.allTicked))).
Proof.
  apply (total_is_ordered_sum Examples.centsCalc Examples.centsCalcReversed).
  exact (Permutation_rev
           [Examples.tenCents; Examples.twentyCents; Examples.thirtyCents]).
Defined.

(** C1, the part that fails: with 0.10, 0.20 and 0.30 ticked, the schema in
    one order totals 0.6000000000000001 and in the reverse order 0.6. *)
Lemma total_depends_on_field_order :
  Permutation (fieldsOf Examples.centsCalc)
              (fieldsOf Examples.centsCalcReversed)
  /\ total Examples.centsCalc Examples.allTicked
     = S754_finite false 5404319552844596 (-53)
  /\ total Examples.centsCalcReversed Examples.allTicked
     = S754_finite false 5404319552844595 (-53)
  /\ total Examples.centsCalc Examples.allTicked
     <> total Examples.centsCalcReversed Examples.allTicked.
Proof.
  split; [|split; [|split]].
  - exact (Permutation_rev
             [Examples.tenCents; Examples.twentyCents; Examples.thirtyCents]).
  - vm_compute. reflexivity.
  - vm_compute. reflexivity.
  - vm_compute. discriminate.
Qed.

(** ** The export guard *)

Lemma existsb_false_Forall {A : Type} (p : A -> bool) (l : list A) :
  existsb p l = false <-> Forall (fun a => p a = false) l.
Proof.
  induction l as [|a l IH]; simpl.
  - split; [constructor | reflexivity].
  - rewrite orb_false_iff, IH. split.
    + intros [Ha Hl]. now constructor.
    + intros H. inversion H. now split.
Qed.

Lemma existsb_true_Exists {A : Type} (p : A -> bool) (l : list A) :
  existsb p l = true <-> Exists (fun a => p a = true) l.
Proof.
  rewrite existsb_exists, Exists_exists. reflexivity.
Qed.

Lemma somethingSelected_false (rows : list Row) (st : State) :
  somethingSelected rows st = false
  <-> rows = []
      /\ Forall (fun v => gt v zero = false)
                (JSObject.values (dropdownValues st)).
Proof.
  unfold somethingSelected.
  rewrite orb_false_iff, existsb_false_Forall, negb_false_iff, Nat.eqb_eq.
  split; intros [H1 H2]; split; auto.
  - now apply length_zero_iff_nil.
  - now subst rows.
Qed.

Lemma somethingSelected_true (rows : list Row) (st : State) :
  somethingSelected rows st = true
  <-> rows <> []
      \/ Exists (fun v => gt v zero = true)
                (JSObject.values (dropdownValues st)).
Proof.
  unfold somethingSelected.
  rewrite orb_true_iff, existsb_true_Exists, negb_true_iff, Nat.eqb_neq.
  split; (intros [H|H]; [left | now right]).
  - intros ->. now apply H.
  - intros E. apply H. now apply length_zero_iff_nil.
Qed.

Lemma handleDownloadPdf_cases (calc : option CalculatorData) (st : State) :
  (somethingSelected (buildSelections calc st) st = false
   /\ handleDownloadPdf calc st
      = (st, [Alert "Please make some selections before submitting."]))
  \/ (somethingSelected (buildSelections calc st) st = true
      /\ handleDownloadPdf calc st
         = (st, [Save (mkPdf (pdfTitleOf calc) (buildSelections calc st)
                             (total calc st))])).
Proof.
  unfold handleDownloadPdf.
  destruct (somethingSelected (buildSelections calc st) st); simpl; auto.
Qed.

(** C2.  The export is rejected (the alert is the only effect, nothing is
    saved) exactly when the rows are empty and no stored dropdown value is
    positive; otherwise one document holding the rows and the total is
    saved; a positive dropdown value is enough for that, whatever the
    flags; the state is the same after the handler either way. *)
Theorem export_guard (calc : option CalculatorData) (st : State) :
  (rejected (handleDownloadPdf calc st)
   <-> buildSelections calc st = []
       /\ Forall (fun v => gt v zero = false)
                 (JSObject.values (dropdownValues st)))
  /\ (saved (handleDownloadPdf calc st)
      <-> buildSelections calc st <> []
          \/ Exists (fun v => gt v zero = true)
                    (JSObject.values (dropdownValues st)))
  /\ (saved (handleDownloadPdf calc st)
      <-> snd (handleDownloadPdf calc st)
          = [Save (mkPdf (pdfTitleOf calc) (buildSelections calc st)
                         (total calc st))])
  /\ (rejected (handleDownloadPdf calc st)
      -> forall doc, ~ In (Save doc) (snd (handleDownloadPdf calc st)))
  /\ (Exists (fun v => gt v zero = true)
             (JSObject.values (dropdownValues st))
      -> flaggedOptions (fieldsOf calc) (checked st) = []
      -> saved (handleDownloadPdf calc st))
  /\ fst (handleDownloadPdf calc st) = st.
Proof.
  unfold rejected, saved.
  destruct (handleDownloadPdf_cases calc st) as [[Hs ->]|[Hs ->]]; simpl.
  - pose proof (proj1 (somethingSelected_false _ _) Hs) as Hno.
    split; [|split; [|split; [|split; [|split]]]].
    + split; auto.
    + split.
      * intros [doc Hd]. discriminate.
      * intros H. apply somethingSelected_true in H. congruence.
    + split; [intros [doc Hd]|]; discriminate.
    + intros _ doc [Hd|[]]. discriminate.
    + intros H _. exfalso.
      assert (somethingSelected (buildSelections calc st) st = true)
        by (apply somethingSelected_true; now right).
      congruence.
    + reflexivity.
  - pose proof (proj1 (somethingSelected_true _ _) Hs) as Hyes.
    split; [|split; [|split; [|split; [|split]]]].
    + split; [discriminate|].
      intros H. apply somethingSelected_false in H. congruence.
    + split; eauto.
    + split; eauto.
    + discriminate.
    + eauto.
    + reflexivity.
Qed.

(** ** Dropdown rows *)

Lemma dropdownItem_cases (st : State) (f : Field) :
  dropdownItem st f
  = match type f with
    | DropDown =>
        match JSObject.get (dropAlias f) (dropdownValues st),
              JSObject.get (dropAlias f) (dropdownLabels st) with
        | Some v, Some l =>
            if truthy v && negb (String.eqb l "")
            then [mkRow (label f) l v] else []
        | _, _ => []
        end
    | _ => []
    end.
Proof. reflexivity. Qed.

(** The rows of declared type are the dropdown rows, one per field at
    most and in schema order, followed by the checkbox rows.  A field
    contributes the dropdown row [{section: label, item: selected label,
    price: selected value}] exactly when it is a Drop Down field whose
    stored value is an amount other than zero and whose stored label is
    not empty; a stored value equal to zero gives no row.  This is the
    program wherever its reads stay within the stored properties
    ([buildSelections_at_runtime]). *)
Theorem dropdown_line_item (calc : option CalculatorData) (st : State)
  (f : Field) :
  buildSelections calc st
  = flat_map (dropdownItem st) (fieldsOf calc)
    ++ map rowOf (flaggedOptions (fieldsOf calc) (checked st))
  /\ (forall r,
        In r (dropdownItem st f)
        <-> type f = DropDown
            /\ nonZeroAmount
                 (JSObject.get (dropAlias f) (dropdownValues st)) = true
            /\ nonEmptyLabel
                 (JSObject.get (dropAlias f) (dropdownLabels st)) = true
            /\ Some (price r) = JSObject.get (dropAlias f) (dropdownValues st)
            /\ Some (item r) = JSObject.get (dropAlias f) (dropdownLabels st)
            /\ section r = label f)
  /\ (List.length (dropdownItem st f) <= 1)%nat
  /\ (forall v,
        JSObject.get (dropAlias f) (dropdownValues st) = Some v ->
        strictNe v zero = false ->
        dropdownItem st f = []).
Proof.
  split; [apply buildSelections_rows|].
  rewrite dropdownItem_cases.
  destruct (JSObject.get (dropAlias f) (dropdownValues st)) as [v|] eqn:Gv.
  2:{ split; [|split]; [| destruct (type f); simpl; lia | discriminate].
      intros r. split.
      - now destruct (type f).
      - intros (_ & H & _). discriminate. }
  rewrite nonZeroAmount_truthy.
  destruct (JSObject.get (dropAlias f) (dropdownLabels st)) as [l|] eqn:Gl.
  2:{ split; [|split]; [| destruct (type f); simpl; lia
                        | now destruct (type f)].
      intros r. split.
      - now destruct (type f).
      - intros (_ & _ & H & _). discriminate. }
  unfold nonEmptyLabel.
  destruct (type f) eqn:Ty;
    try (split; [|split]; [| simpl; lia | reflexivity];
         intros r; split; [intros [] | intros (H & _); discriminate]).
  destruct (truthy v) eqn:Tv; destruct (negb (String.eqb l "")) eqn:El;
    cbn [andb]; (split; [|split]; [| simpl; lia |]);
    try (intros r; split; [intros [] | intros (_ & H1 & H2 & _); discriminate]);
    try reflexivity.
  - intros r. split.
    + intros [<-|[]]. simpl. repeat split; reflexivity.
    + intros (_ & _ & _ & Hp & Hi & Hs). left.
      destruct r as [s i p]. simpl in *. congruence.
  - intros v' [= <-] Hz. destruct v as [[]|[]| |[] m e]; discriminate.
Qed.

(** ** Parsing amounts *)

Lemma numberOrZero_Some (s : string) :
  numberOrZero (Some s) = StringToNumber s.
Proof. now destruct s. Qed.

Lemma flagged_row_and_amount (calc : option CalculatorData) (st : State)
  (fo : Field * Option) :
  In fo (flaggedOptions (fieldsOf calc) (checked st)) ->
  In (rowOf fo) (buildSelections calc st)
  /\ In (amountOf fo)
        (map amountOf (flaggedOptions (fieldsOf calc) (checked st))).
Proof.
  intros H. split.
  - rewrite buildSelections_rows. apply in_or_app. right. now apply in_map.
  - now apply in_map.
Qed.

(** C4 (as amended).  [toNum] is a total function.  It gives 0 for an
    absent value and for a string that does not parse (such as "abc"); a
    string that parses to a negative number is returned as that number,
    not clamped.  The negative amount of a flagged option is then the
    price of its row and, as it is, one of the addends of the binary64 sum
    that is the total. *)
Theorem toNum_parse :
  toNum Undefined = zero
  /\ (forall s, isNaN (StringToNumber s) = true -> toNum (Str s) = zero)
  /\ (StringToNumber "abc" = NaN /\ toNum (Str "abc") = zero)
  /\ (forall s,
        lt (StringToNumber s) zero = true ->
        toNum (Str s) = StringToNumber s)
  /\ (forall calc st f o,
        In (f, o) (flaggedOptions (fieldsOf calc) (checked st)) ->
        lt (StringToNumber (optionValue o)) zero = true ->
        In (mkRow (label f) (optionText o) (StringToNumber (optionValue o)))
           (buildSelections calc st)
        /\ In (StringToNumber (optionValue o))
              (map amountOf (flaggedOptions (fieldsOf calc) (checked st)))
        /\ total calc st
           = sumFrom zero
               (map orZero (JSObject.values (dropdownValues st))
                ++ map amountOf
                     (flaggedOptions (fieldsOf calc) (checked st)))).
Proof.
  split; [reflexivity|]. split; [|split; [|split]].
  - intros s H. unfold toNum. rewrite numberOrZero_Some.
    apply orZero_falsy. now destruct (StringToNumber s).
  - split; vm_compute; reflexivity.
  - intros s H. unfold toNum. rewrite numberOrZero_Some.
    apply truthy_orZero. now apply lt_zero_truthy.
  - intros calc st f o Hin Hneg.
    assert (Ha : amountOf (f, o) = StringToNumber (optionValue o)).
    { unfold amountOf, toNum. simpl snd. rewrite numberOrZero_Some.
      apply truthy_orZero. now apply lt_zero_truthy. }
    destruct (flagged_row_and_amount calc st (f, o) Hin) as [Hr Hs].
    unfold rowOf in Hr. rewrite Ha in Hr, Hs. simpl in Hr.
    split; [exact Hr|]. split; [exact Hs|]. apply total_sum.
Qed.

(** C4, the part that fails: with 2^54 selected in the dropdown, ticking
    the option priced -1 adds -1 as it is, and the total stays 2^54: the
    sum 2^54 - 1 is no binary64 number and rounds back to 2^54. *)
Lemma negative_amount_absorbed_by_rounding :
  toNum (Str (optionValue EdgeExamples.minusOne)) = StringToNumber "-1"
  /\ lt (toNum (Str (optionValue EdgeExamples.minusOne))) zero = true
  /\ In (EdgeExamples.offField, EdgeExamples.minusOne)
        (flaggedOptions (fieldsOf EdgeExamples.discountCalc)
           (checked EdgeExamples.hugeDiscounted))
  /\ flaggedOptions (fieldsOf EdgeExamples.discountCalc)
       (checked EdgeExamples.hugeSelected) = []
  /\ total EdgeExamples.discountCalc EdgeExamples.hugeSelected
     = StringToNumber "18014398509481984"
  /\ total EdgeExamples.discountCalc EdgeExamples.hugeDiscounted
     = total EdgeExamples.discountCalc EdgeExamples.hugeSelected
  /\ lt (total EdgeExamples.discountCalc EdgeExamples.hugeDiscounted)
        (total EdgeExamples.discountCalc EdgeExamples.hugeSelected) = false.
Proof.
  split; [vm_compute; reflexivity|].
  split; [vm_compute; reflexivity|].
  split; [vm_compute; left; reflexivity|].
  repeat (split; [vm_compute; reflexivity|]).
  vm_compute. reflexivity.
Qed.

(** ** Dropdown selection *)

Lemma onChangeDropdown_text (f : Field) (value : string) (st : State) :
  dropdownLabels (onChangeDropdown f value st)
  = JSObject.set (dropAlias f) (matchingText f value) (dropdownLabels st).
Proof.
  unfold onChangeDropdown, matchingText, optionsOrEmpty. simpl.
  now destruct (options f).
Qed.

Lemma onChangeDropdown_twice (f1 f2 : Field) (raw1 raw2 : string) (st : State) :
  dropAlias f1 = dropAlias f2 ->
  onChangeDropdown f2 raw2 (onChangeDropdown f1 raw1 st)
  = onChangeDropdown f2 raw2 st.
Proof.
  intros Ha. unfold onChangeDropdown. simpl. rewrite Ha.
  now rewrite !set_set.
Qed.

(** C5.  Two successive selections on fields with the same alias: the
    state after both is the state after the second alone, so the entries
    of the alias and every total are those of the second selection; the
    value stored is [Number(value || 0)] and the label stored is the text
    of the first option whose [optionValue] is the chosen raw value, or the
    empty string when there is none. *)
Theorem dropdown_selection_replaces (calc : option CalculatorData)
  (f1 f2 : Field) (raw1 raw2 : string) (st : State) :
  dropAlias f1 = dropAlias f2 ->
  onChangeDropdown f2 raw2 (onChangeDropdown f1 raw1 st)
  = onChangeDropdown f2 raw2 st
  /\ total calc (onChangeDropdown f2 raw2 (onChangeDropdown f1 raw1 st))
     = total calc (onChangeDropdown f2 raw2 st)
  /\ JSObject.get (dropAlias f2)
       (dropdownValues (onChangeDropdown f2 raw2 (onChangeDropdown f1 raw1 st)))
     = Some (StringToNumber raw2)
  /\ JSObject.get (dropAlias f2)
       (dropdownLabels (onChangeDropdown f2 raw2 (onChangeDropdown f1 raw1 st)))
     = Some (matchingText f2 raw2)
  /\ (forall o,
        find (fun o => String.eqb (optionValue o) raw2) (optionsOrEmpty f2)
        = Some o ->
        matchingText f2 raw2 = optionText o)
  /\ ((forall o, In o (optionsOrEmpty f2) -> optionValue o <> raw2) ->
      matchingText f2 raw2 = "").
Proof.
  intros Ha. rewrite (onChangeDropdown_twice f1 f2 raw1 raw2 st Ha).
  split; [reflexivity|]. split; [reflexivity|]. split; [|split; [|split]].
  - unfold onChangeDropdown. cbn [dropdownValues].
    now rewrite get_set_same, numberOrZero_Some.
  - now rewrite onChangeDropdown_text, get_set_same.
  - intros o Hf. unfold matchingText. now rewrite Hf.
  - intros Hno. unfold matchingText.
    destruct (find _ (optionsOrEmpty f2)) as [o|] eqn:Hf; [|reflexivity].
    apply find_some in Hf. destruct Hf as [Hin He].
    apply String.eqb_eq in He. now elim (Hno o Hin).
Qed.

Lemma dropdown_selection_replaces_witness :
  onChangeDropdown Examples.travelField "0"
    (onChangeDropdown Examples.travelField "500" initialState)
  = onChangeDropdown Examples.travelField "0" initialState
  /\ total Examples.quoteCalc
       (onChangeDropdown Examples.travelField "0"
          (onChangeDropdown Examples.travelField "500" initialState))
     = zero.
Proof.
  destruct (dropdown_selection_replaces Examples.quoteCalc
              Examples.travelField Examples.travelField "500" "0"
              initialState eq_refl) as (Hst & Htot & _).
  split; [exact Hst|]. rewrite Htot. vm_compute. reflexivity.
Defined.

(** ** Checkbox flags *)

Lemma isChecked_set_same (k : string) (b : bool) (chk : JSObject.t bool) :
  isChecked (JSObject.set k b chk) k = b.
Proof. unfold isChecked. now rewrite get_set_same. Qed.

Lemma isChecked_set_other (k k' : string) (b : bool) (chk : JSObject.t bool) :
  k <> k' -> isChecked (JSObject.set k b chk) k' = isChecked chk k'.
Proof. intros H. unfold isChecked. now rewrite get_set_other. Qed.

(** The flagged options only depend on which keys read as set. *)
Lemma flaggedOptions_ext (fs : list Field) (c1 c2 : JSObject.t bool) :
  (forall k, isChecked c1 k = isChecked c2 k) ->
  flaggedOptions fs c1 = flaggedOptions fs c2.
Proof.
  intros H. unfold flaggedOptions.
  apply flat_map_ext. intros f. unfold flaggedOf.
  destruct (isCheckType f); [|reflexivity].
  f_equal. apply filter_ext. intros o. apply H.
Qed.

Lemma total_ext_checked (calc : option CalculatorData) (st st' : State) :
  dropdownValues st' = dropdownValues st ->
  (forall k, isChecked (checked st') k = isChecked (checked st) k) ->
  total calc st' = total calc st.
Proof.
  intros Hv Hc. rewrite !total_sum, Hv.
  now rewrite (flaggedOptions_ext _ _ _ Hc).
Qed.

Lemma set_then_clear_reads (k : string) (chk : JSObject.t bool) :
  isChecked chk k = false ->
  forall k',
    isChecked (JSObject.set k false (JSObject.set k true chk)) k'
    = isChecked chk k'.
Proof.
  intros H k'. destruct (String.eqb k k') eqn:E.
  - apply String.eqb_eq in E. subst k'. now rewrite isChecked_set_same.
  - apply String.eqb_neq in E. now rewrite !isChecked_set_other.
Qed.

(** A click on a checkbox and a second click on it leave every key reading
    as before, from whatever state. *)
Lemma click_twice_reads (f : Field) (o : Option) (st : State) (k : string) :
  isChecked (checked (clickCheckbox f o (clickCheckbox f o st))) k
  = isChecked (checked st) k.
Proof.
  unfold clickCheckbox, onChangeCheckbox. cbn [checked].
  rewrite isChecked_set_same.
  destruct (String.eqb (flagKey f o) k) eqn:E.
  - apply String.eqb_eq in E. subst k.
    rewrite isChecked_set_same. apply negb_involutive.
  - apply String.eqb_neq in E. now rewrite !isChecked_set_other.
Qed.

(** C6.  From a state in which the flag of the option is not set, the
    first toggle sets it and the second clears it, and the total after
    both is the total before the first. *)
Theorem toggle_on_off_restores_total (calc : option CalculatorData)
  (f : Field) (o : Option) (st : State) :
  isChecked (checked st) (flagKey f o) = false ->
  clickCheckbox f o st = onChangeCheckbox f o true st
  /\ clickCheckbox f o (clickCheckbox f o st)
     = onChangeCheckbox f o false (onChangeCheckbox f o true st)
  /\ isChecked (checked (onChangeCheckbox f o true st)) (flagKey f o) = true
  /\ total calc (onChangeCheckbox f o false (onChangeCheckbox f o true st))
     = total calc st.
Proof.
  intros H.
  assert (H1 : clickCheckbox f o st = onChangeCheckbox f o true st)
    by (unfold clickCheckbox; now rewrite H).
  split; [exact H1|]. split; [|split].
  - rewrite H1. unfold clickCheckbox at 1.
    unfold onChangeCheckbox at 2. cbn [checked].
    now rewrite isChecked_set_same.
  - unfold onChangeCheckbox. cbn [checked]. apply isChecked_set_same.
  - apply total_ext_checked; [reflexivity|].
    unfold onChangeCheckbox. cbn [checked].
    now apply set_then_clear_reads.
Qed.

Lemma toggle_on_off_restores_total_witness :
  total Examples.quoteCalc
    (onChangeCheckbox Examples.extrasField Examples.insurance false
       (onChangeCheckbox Examples.extrasField Examples.insurance true
          (onChangeDropdown Examples.travelField "500" initialState)))
  = total Examples.quoteCalc
      (onChangeDropdown Examples.travelField "500" initialState).
Proof.
  apply (toggle_on_off_restores_total Examples.quoteCalc
           Examples.extrasField Examples.insurance
           (onChangeDropdown Examples.travelField "500" initialState)).
  reflexivity.
Defined.

(** C7.  The checkbox handler writes the flag of its key and nothing else:
    the dropdown values and labels are the same objects, and every other
    key of the flags reads as before. *)
Theorem checkbox_change_frame (f : Field) (o : Option) (b : bool) (st : State) :
  dropdownValues (onChangeCheckbox f o b st) = dropdownValues st
  /\ dropdownLabels (onChangeCheckbox f o b st) = dropdownLabels st
  /\ JSObject.get (flagKey f o) (checked (onChangeCheckbox f o b st)) = Some b
  /\ (forall k,
        k <> flagKey f o ->
        JSObject.get k (checked (onChangeCheckbox f o b st))
        = JSObject.get k (checked st))
  /\ (forall f' o',
        flagKey f' o' <> flagKey f o ->
        isChecked (checked (onChangeCheckbox f o b st)) (flagKey f' o')
        = isChecked (checked st) (flagKey f' o')).
Proof.
  unfold onChangeCheckbox. cbn [dropdownValues dropdownLabels checked].
  split; [reflexivity|]. split; [reflexivity|]. split; [|split].
  - apply get_set_same.
  - intros k Hk. apply get_set_other. congruence.
  - intros f' o' Hk. apply isChecked_set_other. congruence.
Qed.

(** ** Loading the schema and the degraded view *)

(** C8 (as amended).  Reading the calculator is a total function.  It is
    [null] exactly when the root has no [calculators] or an empty one; a
    first calculator without [ccb_fields] is returned as it is.  The view
    is the one without calculator exactly when the calculator is [null]
    or has no [ccb_fields], and that view offers no control and no submit
    button. *)
Theorem load_and_degraded_view (ccbRoot : CcbRoot) (st : State) :
  (calculator ccbRoot = None
   <-> calculators ccbRoot = None \/ calculators ccbRoot = Some [])
  /\ (forall c cs,
        calculators ccbRoot = Some (c :: cs) -> calculator ccbRoot = Some c)
  /\ (render (calculator ccbRoot) st = NoCalculatorFound
      <-> calculator ccbRoot = None
          \/ exists c, calculator ccbRoot = Some c /\ ccb_fields c = None)
  /\ (render (calculator ccbRoot) st = NoCalculatorFound ->
      controlsOf (render (calculator ccbRoot) st) = []
      /\ hasSubmit (render (calculator ccbRoot) st) = false).
Proof.
  split; [|split; [|split]].
  - unfold calculator. destruct (calculators ccbRoot) as [[|c cs]|]; simpl.
    + split; auto.
    + split; [discriminate | intros [H|H]; discriminate].
    + split; auto.
  - intros c cs H. unfold calculator. now rewrite H.
  - unfold render. destruct (calculator ccbRoot) as [c|].
    + destruct (ccb_fields c) eqn:Hf.
      * split; [discriminate|].
        intros [H|(c' & [= <-] & H)]; congruence.
      * split; eauto.
    + split; auto.
  - intros ->. split; reflexivity.
Qed.

(** C8, the part that fails: the first calculator of this root has no
    [ccb_fields], and the calculator read from it is that object, not
    [null]; the view is the degraded one all the same. *)
Lemma calculator_without_fields_is_not_null :
  calculators Examples.noFieldsRoot = Some [Examples.noFields]
  /\ ccb_fields Examples.noFields = None
  /\ calculator Examples.noFieldsRoot = Some Examples.noFields
  /\ calculator Examples.noFieldsRoot <> None
  /\ render (calculator Examples.noFieldsRoot) initialState
     = NoCalculatorFound.
Proof. repeat split; try reflexivity. discriminate. Qed.

(** ** The older variant against the current one *)

Lemma Older_fieldsOf (ccbRoot : CcbRoot) :
  Older.fieldsOf (Older.calculator ccbRoot) = fieldsOf (calculator ccbRoot).
Proof.
  unfold Older.fieldsOf, Older.calculator, fieldsOf, calculator.
  now destruct (calculators ccbRoot) as [[|c cs]|].
Qed.

Lemma Older_addField_flagged (chk : JSObject.t bool) (f : Field)
  (sum : number) :
  Older.addField chk sum f = sumFrom sum (map rawAmountOf (flaggedOf chk f)).
Proof.
  unfold Older.addField, flaggedOf, optionsOrEmpty.
  destruct (options f) as [os|]; [|now destruct (isCheckType f)].
  destruct (isCheckType f); [|reflexivity].
  unfold sumFrom. revert sum.
  induction os as [|o os IH]; simpl; intros sum; [reflexivity|].
  destruct (isChecked chk (flagKey f o)); simpl; apply IH.
Qed.

Lemma Older_total_sum (calc : CalculatorData) (dv : JSObject.t number)
  (chk : JSObject.t bool) :
  Older.total calc dv chk
  = sumFrom zero
      (map orZero (JSObject.values dv)
       ++ map rawAmountOf (flaggedOptions (Older.fieldsOf calc) chk)).
Proof.
  unfold Older.total. rewrite fold_add_map, sumFrom_app.
  generalize (sumFrom zero (map orZero (JSObject.values dv))).
  unfold flaggedOptions.
  induction (Older.fieldsOf calc) as [|f fs IH]; simpl; intros sum;
    [reflexivity|].
  now rewrite IH, Older_addField_flagged, map_app, sumFrom_app.
Qed.

Lemma amountOf_raw (fo : Field * Option) :
  amountOf fo = orZero (rawAmountOf fo).
Proof. reflexivity. Qed.

Lemma sumFrom_In_NaN (xs : list number) (init : number) :
  In NaN xs -> sumFrom init xs = NaN.
Proof.
  revert init. induction xs as [|x xs IH]; intros init; [intros []|].
  intros [->|H].
  - unfold sumFrom. simpl. rewrite add_NaN_r. apply sumFrom_NaN.
  - unfold sumFrom. simpl. now apply IH.
Qed.

Lemma orZero_exponentOk (v : number) :
  exponentOk v = true -> exponentOk (orZero v) = true.
Proof. unfold orZero. now destruct (truthy v). Qed.

Lemma sumFrom_negZeroFree (xs : list number) (init : number) :
  negZeroFree init ->
  Forall (fun x => exponentOk x = true) xs ->
  negZeroFree (sumFrom init xs).
Proof.
  revert init. induction xs as [|x xs IH]; intros init Hi Hx; [exact Hi|].
  inversion Hx as [|? ? Hx1 Hx2]. subst.
  apply (IH (add init x)); [|exact Hx2]. now apply add_negZeroFree.
Qed.

Lemma add_orZero (s x : number) :
  s <> negZero -> isNaN x = false -> add s (orZero x) = add s x.
Proof.
  intros Hs Hx. destruct x as [[]|[]| |[] m e]; try reflexivity.
  - symmetry. now apply add_negZero.
  - discriminate.
Qed.

(** On a running sum that started at [+0], adding [x || 0] and adding [x]
    never differ unless some [x] is [NaN]. *)
Lemma sumFrom_orZero (xs : list number) (init : number) :
  negZeroFree init ->
  Forall (fun x => isNaN x = false /\ exponentOk x = true) xs ->
  sumFrom init (map orZero xs) = sumFrom init xs.
Proof.
  revert init. induction xs as [|x xs IH]; intros init Hi Hx; [reflexivity|].
  inversion Hx as [|? ? [Hn He] Hx2]. subst.
  unfold sumFrom. simpl. rewrite (add_orZero init x (proj1 Hi) Hn).
  apply IH; [|exact Hx2]. now apply add_negZeroFree.
Qed.

(** When the amount of a flagged option converts to [NaN], the older total
    is [NaN]. *)
Lemma older_total_NaN (ccbRoot : CcbRoot) (st : State) :
  Exists (fun fo => isNaN (rawAmountOf fo) = true)
         (flaggedOptions (fieldsOf (calculator ccbRoot)) (checked st)) ->
  Older.total (Older.calculator ccbRoot) (dropdownValues st) (checked st)
  = NaN.
Proof.
  rewrite Older_total_sum, Older_fieldsOf.
  intros H. apply sumFrom_In_NaN. apply in_or_app. right.
  apply Exists_exists in H. destruct H as (fo & Hin & Hn).
  replace NaN with (rawAmountOf fo)
    by (destruct (rawAmountOf fo); try discriminate; reflexivity).
  now apply in_map.
Qed.

(** Every value the dropdown handler stores comes from [Number], so its
    exponent is in range in every reachable state. *)
Lemma reachable_exponentOk (st : State) :
  Reachable st ->
  Forall (fun v => exponentOk v = true) (JSObject.values (dropdownValues st)).
Proof.
  induction 1 as [|f value st _ IH|f o b st _ IH].
  - constructor.
  - apply Forall_forall. intros x Hx. unfold onChangeDropdown in Hx.
    cbn [dropdownValues] in Hx. apply values_set in Hx.
    destruct Hx as [->|Hx].
    + rewrite numberOrZero_Some. apply StringToNumber_exponentOk.
    + revert x Hx. now apply Forall_forall.
  - exact IH.
Qed.

Lemma totals_agree (ccbRoot : CcbRoot) (st : State) :
  Forall (fun v => exponentOk v = true)
         (JSObject.values (dropdownValues st)) ->
  Forall (fun fo => isNaN (rawAmountOf fo) = false)
         (flaggedOptions (fieldsOf (calculator ccbRoot)) (checked st)) ->
  Older.total (Older.calculator ccbRoot) (dropdownValues st) (checked st)
  = total (calculator ccbRoot) st.
Proof.
  intros Hv Hf. rewrite Older_total_sum, total_sum, Older_fieldsOf.
  rewrite !sumFrom_app.
  rewrite (map_ext amountOf (fun fo => orZero (rawAmountOf fo)) amountOf_raw).
  rewrite <- (map_map rawAmountOf orZero).
  symmetry. apply sumFrom_orZero.
  - apply sumFrom_negZeroFree; [split; [discriminate | reflexivity]|].
    apply Forall_map. eapply Forall_impl; [|exact Hv].
    intros v H. cbv beta. now apply orZero_exponentOk.
  - apply Forall_map. eapply Forall_impl; [|exact Hf].
    intros fo H. cbv beta. split; [exact H|].
    unfold rawAmountOf. rewrite numberOrZero_Some.
    apply StringToNumber_exponentOk.
Qed.

(** In every reachable state the two totals agree unless the amount of a
    flagged option converts to [NaN]. *)
Lemma totals_agree_when_reachable (ccbRoot : CcbRoot) (st : State) :
  Reachable st ->
  Forall (fun fo => isNaN (rawAmountOf fo) = false)
         (flaggedOptions (fieldsOf (calculator ccbRoot)) (checked st)) ->
  Older.total (Older.calculator ccbRoot) (dropdownValues st) (checked st)
  = total (calculator ccbRoot) st.
Proof.
  intros Hr. apply totals_agree. now apply reachable_exponentOk.
Qed.

(** C9 (as amended).  On a state whose stored dropdown values are binary64
    numbers, the total of the older variant and the total of the current
    one are equal whenever no flagged option has an amount that converts
    to [NaN]. *)
Theorem variants_agree_on_parsed_amounts (ccbRoot : CcbRoot) (st : State) :
  Forall (fun v => isBinary64 v = true)
         (JSObject.values (dropdownValues st)) ->
  Forall (fun fo => isNaN (rawAmountOf fo) = false)
         (flaggedOptions (fieldsOf (calculator ccbRoot)) (checked st)) ->
  Older.total (Older.calculator ccbRoot) (dropdownValues st) (checked st)
  = total (calculator ccbRoot) st.
Proof.
  intros Hv Hf. apply totals_agree; [|exact Hf].
  eapply Forall_impl; [|exact Hv].
  intros v H. now apply isBinary64_exponentOk.
Qed.

Lemma variants_agree_on_parsed_amounts_witness :
  Older.total (Older.calculator Examples.quoteRoot)
    (dropdownValues Examples.businessInsured)
    (checked Examples.businessInsured)
  = total (calculator Examples.quoteRoot) Examples.businessInsured.
Proof.
  apply (variants_agree_on_parsed_amounts Examples.quoteRoot
           Examples.businessInsured).
  - apply Forall_cons; [reflexivity | apply Forall_nil].
  - apply Forall_cons; [reflexivity | apply Forall_nil].
Defined.

(** C9, the part that fails: with the one option priced "abc" ticked, the
    older total is [NaN] and the current one is 0. *)
Lemma variants_differ_on_unparsable_amount :
  Older.total (Older.calculator Examples.mysteryRoot)
    (dropdownValues Examples.mysteryTicked) (checked Examples.mysteryTicked)
  = NaN
  /\ total (calculator Examples.mysteryRoot) Examples.mysteryTicked = zero
  /\ Older.total (Older.calculator Examples.mysteryRoot)
       (dropdownValues Examples.mysteryTicked)
       (checked Examples.mysteryTicked)
     <> total (calculator Examples.mysteryRoot) Examples.mysteryTicked.
Proof.
  split; [|split]; vm_compute; try reflexivity. discriminate.
Qed.

(** ** One flag for equal alias and option text *)

Lemma flagKey_shared (f1 f2 : Field) (o1 o2 : Option) :
  alias f1 = alias f2 -> optionText o1 = optionText o2 ->
  flagKey f1 o1 = flagKey f2 o2.
Proof. intros Ha Ht. unfold flagKey. now rewrite Ha, Ht. Qed.

Lemma flaggedOf_split (chk : JSObject.t bool) (f : Field) (o : Option)
  (before after : list Option) :
  isCheckType f = true ->
  options f = Some (before ++ o :: after) ->
  isChecked chk (flagKey f o) = true ->
  exists l r, flaggedOf chk f = l ++ (f, o) :: r.
Proof.
  intros Hc Ho Hk. unfold flaggedOf, optionsOrEmpty. rewrite Hc, Ho.
  rewrite filter_app. simpl. rewrite Hk, map_app. simpl. eauto.
Qed.

Lemma flaggedOptions_two (chk : JSObject.t bool) (f1 f2 : Field)
  (o1 o2 : Option) (pre mid post : list Field)
  (before1 after1 before2 after2 : list Option) :
  isCheckType f1 = true -> isCheckType f2 = true ->
  options f1 = Some (before1 ++ o1 :: after1) ->
  options f2 = Some (before2 ++ o2 :: after2) ->
  isChecked chk (flagKey f1 o1) = true ->
  isChecked chk (flagKey f2 o2) = true ->
  exists A B C,
    flaggedOptions (pre ++ f1 :: mid ++ f2 :: post) chk
    = A ++ (f1, o1) :: B ++ (f2, o2) :: C.
Proof.
  intros Hc1 Hc2 Ho1 Ho2 Hk1 Hk2.
  destruct (flaggedOf_split chk f1 o1 _ _ Hc1 Ho1 Hk1) as (l1 & r1 & E1).
  destruct (flaggedOf_split chk f2 o2 _ _ Hc2 Ho2 Hk2) as (l2 & r2 & E2).
  exists (flaggedOptions pre chk ++ l1),
         (r1 ++ flaggedOptions mid chk ++ l2),
         (r2 ++ flaggedOptions post chk).
  unfold flaggedOptions.
  rewrite flat_map_app. simpl. rewrite flat_map_app. simpl.
  rewrite E1, E2. repeat (rewrite <- app_assoc; simpl). reflexivity.
Qed.

(** C10.  Two Toggle or Checkbox fields of the schema with equal alias
    (absent on both sides included), each with an option of the same
    text, have one flag key.  After the checkbox of the first is set, both
    options are flagged: each has its own row, and the total sums the
    parsed amounts of both. *)
Theorem shared_flag_counts_twice (calc : option CalculatorData) (st : State)
  (f1 f2 : Field) (o1 o2 : Option) (pre mid post : list Field)
  (before1 after1 before2 after2 : list Option) :
  fieldsOf calc = pre ++ f1 :: mid ++ f2 :: post ->
  isCheckType f1 = true -> isCheckType f2 = true ->
  alias f1 = alias f2 ->
  options f1 = Some (before1 ++ o1 :: after1) ->
  options f2 = Some (before2 ++ o2 :: after2) ->
  optionText o1 = optionText o2 ->
  flagKey f1 o1 = flagKey f2 o2
  /\ exists A B C,
       flaggedOptions (fieldsOf calc)
         (checked (onChangeCheckbox f1 o1 true st))
       = A ++ (f1, o1) :: B ++ (f2, o2) :: C
       /\ buildSelections calc (onChangeCheckbox f1 o1 true st)
          = flat_map (dropdownItem (onChangeCheckbox f1 o1 true st))
              (fieldsOf calc)
            ++ map rowOf A
            ++ mkRow (label f1) (optionText o1) (toNum (Str (optionValue o1)))
               :: map rowOf B
            ++ mkRow (label f2) (optionText o2) (toNum (Str (optionValue o2)))
               :: map rowOf C
       /\ total calc (onChangeCheckbox f1 o1 true st)
          = sumFrom zero
              (map orZero (JSObject.values (dropdownValues st))
               ++ map amountOf A
               ++ toNum (Str (optionValue o1))
                  :: map amountOf B
               ++ toNum (Str (optionValue o2))
                  :: map amountOf C).
Proof.
  intros Hfs Hc1 Hc2 Ha Ho1 Ho2 Ht.
  pose proof (flagKey_shared f1 f2 o1 o2 Ha Ht) as Hk.
  split; [exact Hk|].
  set (st' := onChangeCheckbox f1 o1 true st).
  assert (Hk1 : isChecked (checked st') (flagKey f1 o1) = true)
    by (unfold st', onChangeCheckbox; cbn [checked];
        apply isChecked_set_same).
  assert (Hk2 : isChecked (checked st') (flagKey f2 o2) = true)
    by (rewrite <- Hk; exact Hk1).
  destruct (flaggedOptions_two (checked st') f1 f2 o1 o2 pre mid post
              _ _ _ _ Hc1 Hc2 Ho1 Ho2 Hk1 Hk2) as (A & B & C & E).
  rewrite <- Hfs in E.
  exists A, B, C. split; [exact E|]. split.
  - rewrite buildSelections_rows, E.
    now rewrite !map_app, !map_cons, !map_app, !map_cons.
  - rewrite total_sum, E.
    now rewrite !map_app, !map_cons, !map_app, !map_cons.
Qed.

Lemma shared_flag_counts_twice_witness :
  flagKey Examples.printing Examples.rush10
  = flagKey Examples.shipping Examples.rush20
  /\ exists A B C,
       flaggedOptions (fieldsOf Examples.rushCalc)
         (checked (onChangeCheckbox Examples.printing Examples.rush10 true
                     initialState))
       = A ++ (Examples.printing, Examples.rush10)
           :: B ++ (Examples.shipping, Examples.rush20) :: C.
Proof.
  destruct (shared_flag_counts_twice Examples.rushCalc initialState
              Examples.printing Examples.shipping
              Examples.rush10 Examples.rush20 [] [] [] [] [] [] []
              eq_refl eq_refl eq_refl eq_refl eq_refl eq_refl eq_refl)
    as (Hk & A & B & C & E & _).
  split; [exact Hk|]. exists A, B, C. exact E.
Defined.

(** ** Worked examples *)

(** Splits a conjunction of closed facts and evaluates each of them. *)
Ltac conjuncts := repeat match goal with |- _ /\ _ => split end.

(** The scenario of the specification: Business gives 500, ticking
    Insurance 575, clearing it 500 again, Economy 0 with no row, and the
    export is then rejected. *)
Example scenario_travel_insurance :
  let s1 := onChangeDropdown Examples.travelField "500" initialState in
  let s2 := onChangeCheckbox Examples.extrasField Examples.insurance true s1 in
  let s3 := onChangeCheckbox Examples.extrasField Examples.insurance false s2 in
  let s4 := onChangeDropdown Examples.travelField "0" s3 in
  total Examples.quoteCalc s1 = StringToNumber "500"
  /\ total Examples.quoteCalc s2 = StringToNumber "575"
  /\ total Examples.quoteCalc s3 = StringToNumber "500"
  /\ total Examples.quoteCalc s4 = zero
  /\ buildSelections Examples.quoteCalc s2
     = [mkRow "Travel" "Business" (StringToNumber "500");
        mkRow "Extras" "Insurance" (StringToNumber "75")]
  /\ buildSelections Examples.quoteCalc s4 = []
  /\ rejected (handleDownloadPdf Examples.quoteCalc s4)
  /\ saved (handleDownloadPdf Examples.quoteCalc s1).
Proof.
  cbv zeta. conjuncts; try (vm_compute; reflexivity).
  eexists. vm_compute. reflexivity.
Qed.

(** A discount of 75 on Business: the total is 425 and the row of the
    discount is priced -75. *)
Example scenario_discount :
  total Examples.promoCalc Examples.businessWithLoyalty
  = StringToNumber "425"
  /\ lt (total Examples.promoCalc Examples.businessWithLoyalty)
        (StringToNumber "500") = true
  /\ buildSelections Examples.promoCalc Examples.businessWithLoyalty
     = [mkRow "Travel" "Business" (StringToNumber "500");
        mkRow "Discounts" "Loyalty" (StringToNumber "-75")].
Proof. conjuncts; vm_compute; reflexivity. Qed.

(** One tick on Rush in Printing also ticks Rush in Shipping: the total is
    30 and there are two rows. *)
Example scenario_shared_flag :
  let s := onChangeCheckbox Examples.printing Examples.rush10 true
             initialState in
  total Examples.rushCalc s = StringToNumber "30"
  /\ buildSelections Examples.rushCalc s
     = [mkRow "Printing" "Rush" (StringToNumber "10");
        mkRow "Shipping" "Rush" (StringToNumber "20")]
  /\ render Examples.rushCalc s
     = Form "Rush" (StringToNumber "30")
         [CheckGroup 6 [("undefined:Rush", true)];
          CheckGroup 7 [("undefined:Rush", true)]].
Proof. cbv zeta. conjuncts; vm_compute; reflexivity. Qed.

(** A dropdown option priced "abc": the stored value is [NaN], the label
    is stored, the selection counts as amount 0 and has no row. *)
Example scenario_unparsable_dropdown :
  JSObject.get "pack" (dropdownValues Examples.mysterySelected) = Some NaN
  /\ JSObject.get "pack" (dropdownLabels Examples.mysterySelected)
     = Some "Mystery"
  /\ total (calculator Examples.mysteryRoot) Examples.mysterySelected = zero
  /\ buildSelections (calculator Examples.mysteryRoot)
       Examples.mysterySelected = [].
Proof. conjuncts; vm_compute; reflexivity. Qed.

(** Two clicks on one checkbox restore the total from any state. *)
Lemma click_twice_restores_total (calc : option CalculatorData)
  (f : Field) (o : Option) (st : State) :
  total calc (clickCheckbox f o (clickCheckbox f o st)) = total calc st.
Proof.
  apply total_ext_checked; [reflexivity|]. apply click_twice_reads.
Qed.

(** With amounts 2^53, 1 and 1 ticked the two field orders differ by two
    whole units: 9007199254740992 against 9007199254740994. *)
Example scenario_large_amounts :
  total Examples.hugeCalc Examples.allTicked
  = StringToNumber "9007199254740992"
  /\ total Examples.hugeCalcReversed Examples.allTicked
     = StringToNumber "9007199254740994".
Proof. split; vm_compute; reflexivity. Qed.

(** [Number] on some strings. *)
Example StringToNumber_samples :
  map StringToNumber ["500"; ""; "  "; " 42 "; "abc"; "12px"; "1e"; "."; "0x"]
  = [S754_finite false 8796093022208000 (-44); zero; zero;
     S754_finite false 5910974510923776 (-47); NaN; NaN; NaN; NaN; NaN]
  /\ map StringToNumber ["-0"; "-75"; "Infinity"; "-Infinity"; "0x10"; "1e3"]
     = [negZero; S754_finite true 5277655813324800 (-46);
        Infinity; S754_infinity true;
        S754_finite false 4503599627370496 (-48);
        S754_finite false 8796093022208000 (-43)]
  /\ StringToNumber "0.1" = S754_finite false 7205759403792794 (-56)
  /\ add (StringToNumber "0.1") (StringToNumber "0.2")
     = S754_finite false 5404319552844596 (-54)
  /\ StringToNumber "0.3" = S754_finite false 5404319552844595 (-54)
  /\ Forall (fun s => isBinary64 (StringToNumber s) = true)
            ["500"; "0.1"; "-75"; "1e-320"; "1e400"; "0x10"].
Proof.
  split; [vm_compute; reflexivity|].
  split; [vm_compute; reflexivity|].
  split; [vm_compute; reflexivity|].
  split; [vm_compute; reflexivity|].
  split; [vm_compute; reflexivity|].
  repeat (apply Forall_cons; [vm_compute; reflexivity|]). apply Forall_nil.
Qed.

(** Property order of an object: array-index keys first, ascending, then
    the other keys as inserted; a key written again keeps its place. *)
Example JSObject_order :
  JSObject.set "b" 6%nat
    (JSObject.set "b" 1%nat
       (JSObject.set "10" 2%nat
          (JSObject.set "a" 3%nat
             (JSObject.set "2" 4%nat
                (JSObject.set "01" 5%nat JSObject.empty)))))
  = [("2", 4%nat); ("10", 2%nat); ("01", 5%nat); ("a", 3%nat); ("b", 6%nat)].
Proof. reflexivity. Qed.

(** * Further properties of the component *)

(** ** Drawing the PDF *)

Section Drawing.
Variable env : PdfEnv.

Lemma itemTexts_app (a b : list DocCall) :
  itemTexts (a ++ b) = itemTexts a ++ itemTexts b.
Proof. apply flat_map_app. Qed.

Lemma dollarTexts_app (a b : list DocCall) :
  dollarTexts (a ++ b) = dollarTexts a ++ dollarTexts b.
Proof. unfold dollarTexts, rightTexts. now rewrite flat_map_app, filter_app. Qed.

Lemma breaksCarry_app (hdr a b : list DocCall) :
  breaksCarry hdr a -> breaksCarry hdr b -> breaksCarry hdr (a ++ b).
Proof.
  intros Ha Hb. induction a as [|d r IH]; [exact Hb|].
  destruct Ha as [Hd Hr]. split; [|now apply IH].
  intros Hp. specialize (Hd Hp).
  assert (Hlen : (List.length hdr <= List.length (d :: r))%nat).
  { rewrite <- Hd at 1. rewrite length_firstn. lia. }
  change (firstn (List.length hdr) ((d :: r) ++ b) = hdr).
  rewrite (firstn_app (List.length hdr) (d :: r) b).
  replace (List.length hdr - List.length (d :: r))%nat with 0%nat by lia.
  rewrite Hd. simpl. apply app_nil_r.
Qed.

Lemma breaksCarry_plain (hdr ds : list DocCall) :
  filter isAddPage ds = [] -> breaksCarry hdr ds.
Proof.
  induction ds as [|d r IH]; simpl; [trivial|].
  destruct (isAddPage d) eqn:E; [discriminate|].
  intros H. split; [discriminate | now apply IH].
Qed.

Lemma headerAgain_carries : breaksCarry (headerAgain env) (headerAgain env).
Proof.
  unfold headerAgain, pageBreak, columnTitles. simpl.
  repeat split; try discriminate.
Qed.

Lemma drawRow_appends (y : number) (cs : list DocCall) (r : Row) :
  drawRow env (y, cs) r
  = (fst (rowTexts env
            (if needsPageBreak env y then fst (pageBreak env) else y) r),
     cs ++ roundCalls env y r).
Proof.
  unfold drawRow, roundCalls, headerAgain.
  destruct (needsPageBreak env y).
  - destruct (pageBreak env) as [y' brk]. simpl.
    destruct (rowTexts env y' r) as [y'' texts]. simpl.
    now rewrite app_assoc.
  - destruct (rowTexts env y r) as [y'' texts]. reflexivity.
Qed.

Lemma roundCalls_facts (y : number) (r : Row) :
  itemTexts (roundCalls env y r) = [itemLinesOf env r]
  /\ dollarTexts (roundCalls env y r) = [formatUSD env (price r)]
  /\ filter isSave (roundCalls env y r) = []
  /\ (List.length (filter isAddPage (roundCalls env y r)) <= 1)%nat
  /\ breaksCarry (headerAgain env) (roundCalls env y r).
Proof.
  unfold roundCalls.
  destruct (needsPageBreak env y); simpl; repeat split; try discriminate;
    try reflexivity; try lia.
Qed.

(** The loop appends to the calls made so far; what it appends holds the
    item of every row once and in order, the price of every row once and
    in order, no [save], at most one new page per row, and the table
    header after every new page. *)
Lemma drawRows_shape (rows : list Row) :
  forall (y : number) (cs : list DocCall),
  exists y' rest,
    fold_left (drawRow env) rows (y, cs) = (y', cs ++ rest)
    /\ itemTexts rest = map (itemLinesOf env) rows
    /\ dollarTexts rest = map (fun r => formatUSD env (price r)) rows
    /\ filter isSave rest = []
    /\ (List.length (filter isAddPage rest) <= List.length rows)%nat
    /\ breaksCarry (headerAgain env) rest.
Proof.
  induction rows as [|r rows IH]; intros y cs.
  - exists y, []. rewrite app_nil_r. simpl. repeat split; auto.
  - cbn [fold_left]. rewrite drawRow_appends.
    destruct (IH (fst (rowTexts env
                         (if needsPageBreak env y
                          then fst (pageBreak env) else y) r))
                 (cs ++ roundCalls env y r))
      as (y' & rest & E & Hi & Hd & Hs & Hp & Hb).
    destruct (roundCalls_facts y r) as (Ri & Rd & Rs & Rp & Rb).
    exists y', (roundCalls env y r ++ rest).
    rewrite E, <- app_assoc.
    rewrite itemTexts_app, dollarTexts_app, !filter_app, length_app.
    rewrite Ri, Rd, Rs, Hi, Hd, Hs. simpl.
    repeat split; auto; [lia|].
    now apply breaksCarry_app.
Qed.

Lemma firstPage_facts (calc : option CalculatorData) :
  itemTexts (snd (firstPage env calc)) = []
  /\ dollarTexts (snd (firstPage env calc)) = []
  /\ filter isSave (snd (firstPage env calc)) = []
  /\ filter isAddPage (snd (firstPage env calc)) = [].
Proof. repeat split; reflexivity. Qed.

(** The shape of everything drawn. *)
Lemma drawQuote_shape (calc : option CalculatorData) (rows : list Row)
  (shown : number) :
  exists y body,
    drawQuote env calc rows shown
    = (snd (firstPage env calc) ++ body) ++ footer env y shown
    /\ itemTexts body = map (itemLinesOf env) rows
    /\ dollarTexts body = map (fun r => formatUSD env (price r)) rows
    /\ filter isSave body = []
    /\ (List.length (filter isAddPage body) <= List.length rows)%nat
    /\ breaksCarry (headerAgain env) body.
Proof.
  unfold drawQuote.
  destruct (firstPage env calc) as [y0 cs0] eqn:E0.
  destruct (drawRows_shape rows y0 cs0) as (y & body & E & H).
  exists y, body. rewrite E. simpl. split; [reflexivity | exact H].
Qed.

(** X1.  The item of every row is drawn exactly once, in the order of the
    rows, wherever the page breaks fall: the texts passed to [doc.text] as
    arrays of lines are the split items of the rows. *)
Theorem pdf_items_in_row_order (calc : option CalculatorData)
  (rows : list Row) (shown : number) :
  itemTexts (drawQuote env calc rows shown) = map (itemLinesOf env) rows.
Proof.
  destruct (drawQuote_shape calc rows shown) as (y & body & -> & Hi & _).
  destruct (firstPage_facts calc) as (Fi & _).
  rewrite !itemTexts_app, Fi, Hi. simpl. apply app_nil_r.
Qed.

(** X2.  The amounts printed right-aligned are the prices of the rows, in
    row order, followed by the total handed to the writer, each through
    [formatUSD]. *)
Theorem pdf_prices_then_total (calc : option CalculatorData)
  (rows : list Row) (shown : number) :
  dollarTexts (drawQuote env calc rows shown)
  = map (fun r => formatUSD env (price r)) rows ++ [formatUSD env shown].
Proof.
  destruct (drawQuote_shape calc rows shown) as (y & body & -> & _ & Hd & _).
  destruct (firstPage_facts calc) as (_ & Fd & _).
  rewrite !dollarTexts_app, Fd, Hd. reflexivity.
Qed.

(** X3.  Every page added inside the loop starts with the table header
    printed again, and there is at most one new page per row, so a quote
    without rows has one page. *)
Theorem pdf_page_breaks (calc : option CalculatorData)
  (rows : list Row) (shown : number) :
  breaksCarry (headerAgain env) (drawQuote env calc rows shown)
  /\ (countPages (drawQuote env calc rows shown) <= 1 + List.length rows)%nat.
Proof.
  destruct (drawQuote_shape calc rows shown)
    as (y & body & -> & _ & _ & _ & Hp & Hb).
  destruct (firstPage_facts calc) as (_ & _ & _ & Fp).
  split.
  - apply breaksCarry_app; [apply breaksCarry_app|]; auto.
    + now apply breaksCarry_plain.
    + now apply breaksCarry_plain.
  - unfold countPages. rewrite !filter_app, !length_app, Fp. simpl. lia.
Qed.

End Drawing.

(** ** The handler with its drawing part *)

Lemma drawQuote_ends_with_save (env : PdfEnv) (calc : option CalculatorData)
  (rows : list Row) (shown : number) :
  exists ds,
    drawQuote env calc rows shown = ds ++ [SaveAs (filenameOf (isoNow env))]
    /\ filter isSave ds = [].
Proof.
  destruct (drawQuote_shape env calc rows shown)
    as (y & body & -> & _ & _ & Hs & _).
  destruct (firstPage_facts env calc) as (_ & _ & Fs & _).
  unfold footer.
  match goal with
  | |- exists ds, ?pre ++ ?l = _ /\ _ =>
      exists (pre ++ removelast l)
  end.
  split.
  - rewrite <- !app_assoc. reflexivity.
  - rewrite !filter_app, Fs, Hs. reflexivity.
Qed.

(** X4.  The handler either only alerts, or creates one document, draws
    on it and saves it once, as its last call, under the file name of the
    clock; the rows and the total drawn are those of the outcome of the
    handler.  It never alerts and draws. *)
Theorem export_alerts_or_saves_once (env : PdfEnv)
  (calc : option CalculatorData) (st : State) :
  (rejected (handleDownloadPdf calc st)
   /\ handleDownloadPdfCalls env calc st
      = [WindowAlert "Please make some selections before submitting."])
  \/ (exists doc ds,
        snd (handleDownloadPdf calc st) = [Save doc]
        /\ handleDownloadPdfCalls env calc st
           = NewPdf "pt" "letter"
             :: map OnDoc (ds ++ [SaveAs (filenameOf (isoNow env))])
        /\ ds ++ [SaveAs (filenameOf (isoNow env))]
           = drawQuote env calc (pdfRows doc) (pdfTotal doc)
        /\ filter isSave ds = []).
Proof.
  unfold handleDownloadPdfCalls, rejected.
  destruct (handleDownloadPdf_cases calc st) as [[Hs ->]|[Hs ->]];
    rewrite Hs; simpl.
  - left. split; reflexivity.
  - right.
    destruct (drawQuote_ends_with_save env calc (buildSelections calc st)
                (total calc st)) as (ds & E & Hn).
    eexists. exists ds. split; [reflexivity|]. simpl.
    rewrite E. repeat split; auto.
Qed.

(** ** The file name *)

Lemma hasChar_append (c : ascii) (a b : string) :
  hasChar c (a ++ b) = hasChar c a || hasChar c b.
Proof.
  unfold hasChar. induction a as [|x a IH]; simpl; [reflexivity|].
  now rewrite IH, orb_assoc.
Qed.

Lemma hasChar_mapChars (c : ascii) (s : string) :
  c = ":"%char \/ c = "T"%char ->
  hasChar c (mapChars dashColonT s) = false.
Proof.
  intros Hc. unfold hasChar. induction s as [|x s IH]; simpl; [reflexivity|].
  rewrite IH, orb_false_r. unfold dashColonT.
  destruct (Ascii.eqb x ":" || Ascii.eqb x "T") eqn:E.
  - destruct Hc as [-> | ->]; reflexivity.
  - apply orb_false_iff in E. destruct E as [E1 E2].
    destruct Hc as [-> | ->]; now rewrite Ascii.eqb_sym.
Qed.

Lemma length_mapChars (g : ascii -> ascii) (s : string) :
  String.length (mapChars g s) = String.length s.
Proof. induction s; simpl; congruence. Qed.

Lemma length_prefix (n : nat) (s : string) :
  String.length (String.substring 0 n s) = Nat.min n (String.length s).
Proof.
  revert n. induction s as [|c s IH]; intros [|n]; simpl; auto.
Qed.

Lemma get_mapChars (g : ascii -> ascii) (s : string) (i : nat) :
  String.get i (mapChars g s) = option_map g (String.get i s).
Proof.
  revert i. induction s as [|c s IH]; intros [|i]; simpl; auto.
Qed.

Lemma get_prefix (n i : nat) (s : string) :
  (i < n)%nat -> String.get i (String.substring 0 n s) = String.get i s.
Proof.
  revert n i. induction s as [|c s IH]; intros [|n] [|i] H; simpl;
    try reflexivity; try lia.
  apply IH. lia.
Qed.

Lemma get_beyond (i : nat) (s : string) :
  (String.length s <= i)%nat -> String.get i s = None.
Proof.
  revert i. induction s as [|c s IH]; intros [|i] H; simpl in *;
    try reflexivity; try lia.
  apply IH. lia.
Qed.

Lemma prefix_of_append (a b : string) :
  String.substring 0 (String.length a) (a ++ b) = a.
Proof. induction a as [|c a IH]; simpl; [now destruct b | now rewrite IH]. Qed.

Lemma append_assoc (a b c : string) :
  ((a ++ b) ++ c = a ++ (b ++ c))%string.
Proof. induction a as [|x a IH]; simpl; [reflexivity | now rewrite IH]. Qed.

Lemma length_append (a b : string) :
  String.length (a ++ b) = (String.length a + String.length b)%nat.
Proof. induction a as [|x a IH]; simpl; [reflexivity | now rewrite IH]. Qed.

Lemma mapChars_append (g : ascii -> ascii) (a b : string) :
  mapChars g (a ++ b) = (mapChars g a ++ mapChars g b)%string.
Proof. induction a as [|c a IH]; simpl; [reflexivity | now rewrite IH]. Qed.

Lemma mapChars_unchanged (s : string) :
  hasChar ":" s = false -> hasChar "T" s = false ->
  mapChars dashColonT s = s.
Proof.
  unfold hasChar. induction s as [|c s IH]; [reflexivity|].
  cbn [list_ascii_of_string existsb mapChars].
  intros H1 H2. apply orb_false_iff in H1, H2.
  destruct H1 as [H1 H1'], H2 as [H2 H2'].
  rewrite (IH H1' H2'). unfold dashColonT.
  rewrite (Ascii.eqb_sym c ":"), (Ascii.eqb_sym c "T"), H1, H2. reflexivity.
Qed.

(** The date part of a clock string of the ISO shape. *)
Lemma safeDate_of_iso (day hh mm ss rest : string) :
  String.length day = 10%nat -> String.length hh = 2%nat ->
  String.length mm = 2%nat -> String.length ss = 2%nat ->
  hasChar ":" (day ++ hh ++ mm ++ ss) = false ->
  hasChar "T" (day ++ hh ++ mm ++ ss) = false ->
  safeDate (day ++ "T" ++ hh ++ ":" ++ mm ++ ":" ++ ss ++ rest)
  = (day ++ "-" ++ hh ++ "-" ++ mm ++ "-" ++ ss)%string.
Proof.
  intros Ld Lh Lm Ls Hc Ht.
  rewrite !hasChar_append in Hc, Ht.
  repeat match goal with
         | H : _ || _ = false |- _ =>
             apply orb_false_iff in H; destruct H
         end.
  set (p := (day ++ "T" ++ hh ++ ":" ++ mm ++ ":" ++ ss)%string).
  assert (E : (day ++ "T" ++ hh ++ ":" ++ mm ++ ":" ++ ss ++ rest
               = p ++ rest)%string).
  { unfold p. now rewrite !append_assoc. }
  assert (L : String.length p = 19%nat).
  { unfold p. rewrite !length_append, Ld, Lh, Lm, Ls. reflexivity. }
  unfold safeDate. rewrite E, <- L, prefix_of_append. unfold p.
  rewrite !mapChars_append.
  rewrite (mapChars_unchanged day), (mapChars_unchanged hh),
          (mapChars_unchanged mm), (mapChars_unchanged ss) by assumption.
  reflexivity.
Qed.

(** X5.  The file name is [JO-NA_Quote_], the date part and [.pdf]; the
    date part is the first 19 characters of what the clock returns (all of
    it when shorter), with every colon and every capital T replaced by a
    dash and every other character as it is.  For a clock string of the
    ISO shape, date [T] hours [:] minutes [:] seconds and a rest, the date
    part is date [-] hours [-] minutes [-] seconds.  The whole name holds
    no colon and no capital T. *)
Theorem filename_is_safe (iso : string) :
  filenameOf iso = ("JO-NA_Quote_" ++ safeDate iso ++ ".pdf")%string
  /\ String.length (safeDate iso) = Nat.min 19 (String.length iso)
  /\ (forall i c,
        (i < 19)%nat -> String.get i iso = Some c ->
        String.get i (safeDate iso)
        = Some (if Ascii.eqb c ":" || Ascii.eqb c "T" then "-"%char else c))
  /\ (forall i, (19 <= i)%nat -> String.get i (safeDate iso) = None)
  /\ (forall day hh mm ss rest,
        iso = (day ++ "T" ++ hh ++ ":" ++ mm ++ ":" ++ ss ++ rest)%string ->
        String.length day = 10%nat -> String.length hh = 2%nat ->
        String.length mm = 2%nat -> String.length ss = 2%nat ->
        hasChar ":" (day ++ hh ++ mm ++ ss) = false ->
        hasChar "T" (day ++ hh ++ mm ++ ss) = false ->
        safeDate iso = (day ++ "-" ++ hh ++ "-" ++ mm ++ "-" ++ ss)%string)
  /\ hasChar ":" (filenameOf iso) = false
  /\ hasChar "T" (filenameOf iso) = false.
Proof.
  assert (Hlen : String.length (safeDate iso)
                 = Nat.min 19 (String.length iso)).
  { unfold safeDate. now rewrite length_mapChars, length_prefix. }
  split; [reflexivity|]. split; [exact Hlen|].
  split; [|split; [|split; [|split]]].
  - intros i c Hi Hc. unfold safeDate.
    rewrite get_mapChars, (get_prefix 19 i iso Hi), Hc. reflexivity.
  - intros i Hi. apply get_beyond. rewrite Hlen. lia.
  - intros day hh mm ss rest ->. apply safeDate_of_iso.
  - unfold filenameOf. rewrite !hasChar_append. unfold safeDate.
    now rewrite !hasChar_mapChars by auto.
  - unfold filenameOf. rewrite !hasChar_append. unfold safeDate.
    now rewrite !hasChar_mapChars by auto.
Qed.

(** ** Reads through the prototype *)

Lemma hasChar_flagKey (f : Field) (o : Option) :
  hasChar ":" (flagKey f o) = true.
Proof.
  unfold flagKey. rewrite !hasChar_append. simpl. apply orb_true_r.
Qed.

(** A flag key holds a colon, so it names no member of [Object.prototype]:
    the reads of [checked] never fall through. *)
Lemma flagKey_not_member (f : Field) (o : Option) :
  inheritsMember (flagKey f o) = false.
Proof.
  unfold inheritsMember. apply existsb_false_Forall.
  assert (H : forall m, hasChar ":" m = false ->
                        String.eqb (flagKey f o) m = false).
  { intros m Hm. apply String.eqb_neq. intros E.
    pose proof (hasChar_flagKey f o) as Hk. rewrite E in Hk. congruence. }
  unfold objectPrototypeMembers.
  repeat (apply Forall_cons; [apply H; reflexivity|]). apply Forall_nil.
Qed.

Lemma flag_read_is_own (chk : JSObject.t bool) (f : Field) (o : Option) :
  truthyFlag (readProperty (flagKey f o) chk) = isChecked chk (flagKey f o).
Proof.
  unfold readProperty, isChecked.
  destruct (JSObject.get (flagKey f o) chk); [reflexivity|].
  now rewrite flagKey_not_member.
Qed.

Lemma pushDropdownRuntime_app (st : State) (rows : list RuntimeRow)
  (f : Field) :
  pushDropdownRuntime st rows f = rows ++ dropdownItemRuntime st f.
Proof.
  unfold dropdownItemRuntime, pushDropdownRuntime.
  destruct (type f); rewrite ?app_nil_r; try reflexivity.
  destruct (truthyValue _); [|now rewrite app_nil_r].
  destruct (truthyLabel _); [reflexivity | now rewrite app_nil_r].
Qed.

Lemma pushCheckedRuntime_app (st : State) (rows : list RuntimeRow)
  (f : Field) :
  pushCheckedRuntime st rows f
  = rows ++ map declaredRow (map rowOf (flaggedOf (checked st) f)).
Proof.
  unfold pushCheckedRuntime, flaggedOf, optionsOrEmpty.
  destruct (options f) as [os|];
    [|destruct (isCheckType f); now rewrite app_nil_r].
  destruct (isCheckType f); [|now rewrite app_nil_r].
  revert rows.
  induction os as [|o os IH]; simpl; intros rows; [now rewrite app_nil_r|].
  rewrite flag_read_is_own.
  destruct (isChecked (checked st) (flagKey f o)); simpl; [|apply IH].
  rewrite IH, <- app_assoc. reflexivity.
Qed.

(** The rows at run time: the dropdown rows as read through the
    prototype, then the rows of the flagged options. *)
Lemma buildSelectionsRuntime_rows (calc : option CalculatorData) (st : State) :
  buildSelectionsRuntime calc st
  = flat_map (dropdownItemRuntime st) (fieldsOf calc)
    ++ map declaredRow
         (map rowOf (flaggedOptions (fieldsOf calc) (checked st))).
Proof.
  unfold buildSelectionsRuntime, flaggedOptions.
  rewrite (fold_push_flat_map (pushCheckedRuntime st)
             (fun f => map declaredRow
                         (map rowOf (flaggedOf (checked st) f)))
             (pushCheckedRuntime_app st)).
  rewrite (fold_push_flat_map (pushDropdownRuntime st)
             (dropdownItemRuntime st) (pushDropdownRuntime_app st)).
  simpl. f_equal.
  induction (fieldsOf calc) as [|f fs IH]; simpl; [reflexivity|].
  now rewrite !map_app, IH.
Qed.

Lemma dropdownItemRuntime_own (st : State) (f : Field) :
  readsOwn st f = true ->
  dropdownItemRuntime st f = map declaredRow (dropdownItem st f).
Proof.
  unfold readsOwn, dropdownItemRuntime, pushDropdownRuntime.
  rewrite dropdownItem_cases. unfold readProperty.
  destruct (type f); try reflexivity.
  destruct (JSObject.get (dropAlias f) (dropdownValues st)) as [v|];
    destruct (JSObject.get (dropAlias f) (dropdownLabels st)) as [l|];
    destruct (inheritsMember (dropAlias f)); simpl; try discriminate;
    intros _;
    try destruct (truthy v); try destruct (String.eqb l ""); reflexivity.
Qed.

(** Where no dropdown read falls through to the prototype, the rows at
    run time are the rows of declared type, and the guard of the export
    decides alike. *)
Lemma buildSelections_at_runtime (calc : option CalculatorData) (st : State) :
  forallb (readsOwn st) (fieldsOf calc) = true ->
  buildSelectionsRuntime calc st = map declaredRow (buildSelections calc st)
  /\ somethingSelectedRuntime calc st
     = somethingSelected (buildSelections calc st) st.
Proof.
  intros H.
  assert (E : buildSelectionsRuntime calc st
              = map declaredRow (buildSelections calc st)).
  { rewrite buildSelectionsRuntime_rows, buildSelections_rows, map_app.
    f_equal. rewrite forallb_forall in H.
    induction (fieldsOf calc) as [|f fs IH]; simpl; [reflexivity|].
    rewrite map_app, dropdownItemRuntime_own by (apply H; now left).
    f_equal. apply IH. intros g Hg. apply H. now right. }
  split; [exact E|].
  unfold somethingSelectedRuntime, somethingSelected.
  now rewrite E, length_map.
Qed.

(** With reads that stay within the stored properties, the dropdown row of
    a field at run time is there exactly when the field is a Drop Down
    field whose stored value is an amount other than zero and whose stored
    label is not empty, and it holds that label and that value. *)
Lemma dropdown_row_at_runtime (st : State) (f : Field) (r : RuntimeRow) :
  readsOwn st f = true ->
  (In r (dropdownItemRuntime st f)
   <-> type f = DropDown
       /\ nonZeroAmount
            (JSObject.get (dropAlias f) (dropdownValues st)) = true
       /\ nonEmptyLabel
            (JSObject.get (dropAlias f) (dropdownLabels st)) = true
       /\ option_map Declared
            (JSObject.get (dropAlias f) (dropdownValues st))
          = Some (rowPrice r)
       /\ option_map Declared
            (JSObject.get (dropAlias f) (dropdownLabels st))
          = Some (rowItem r)
       /\ rowSection r = label f).
Proof.
  intros H. rewrite (dropdownItemRuntime_own st f H), dropdownItem_cases.
  destruct (JSObject.get (dropAlias f) (dropdownValues st)) as [v|] eqn:Gv.
  2:{ split; [now destruct (type f) | intros (_ & Hn & _); discriminate]. }
  rewrite nonZeroAmount_truthy.
  destruct (JSObject.get (dropAlias f) (dropdownLabels st)) as [l|] eqn:Gl.
  2:{ split; [now destruct (type f) | intros (_ & _ & Hn & _); discriminate]. }
  unfold nonEmptyLabel.
  destruct (type f); try (split; [intros [] | intros (Hn & _); discriminate]).
  destruct (truthy v); destruct (negb (String.eqb l "")); cbn [andb];
    try (split; [intros [] | intros (_ & H1 & H2 & _); discriminate]).
  simpl. split.
  - intros [<-|[]]. simpl. repeat split; reflexivity.
  - intros (_ & _ & _ & Hp & Hi & Hs). left.
    destruct r as [s i p]. unfold declaredRow. simpl in *.
    injection Hp as <-. injection Hi as <-. now subst s.
Qed.

Lemma dropdown_row_at_runtime_witness :
  In (mkRuntimeRow "Travel" (Declared "Business")
        (Declared (StringToNumber "500")))
     (dropdownItemRuntime
        (onChangeDropdown Examples.travelField "500" initialState)
        Examples.travelField).
Proof.
  apply (dropdown_row_at_runtime
           (onChangeDropdown Examples.travelField "500" initialState)
           Examples.travelField); [reflexivity|].
  split; [reflexivity|]. split; [reflexivity|]. split; [reflexivity|].
  split; [reflexivity|]. split; reflexivity.
Defined.

(** C3.  The claim holds wherever the reads stay within the stored
    properties (see above), and the code departs from it here: the alias
    of the one Drop Down field is [constructor], nothing is stored, both
    reads fall through to [Object.prototype] and are truthy, so the field
    gets a row whose item and price are that inherited member, and the
    guard of the export lets it pass; the total, which enumerates the
    stored values, is 0. *)
Theorem inherited_alias_row_without_selection :
  JSObject.get (dropAlias EdgeExamples.planField)
    (dropdownValues initialState) = None
  /\ JSObject.get (dropAlias EdgeExamples.planField)
       (dropdownLabels initialState) = None
  /\ buildSelectionsRuntime EdgeExamples.planCalc initialState
     = [mkRuntimeRow "Plan" (Member "constructor") (Member "constructor")]
  /\ somethingSelectedRuntime EdgeExamples.planCalc initialState = true
  /\ total EdgeExamples.planCalc initialState = zero.
Proof. conjuncts; reflexivity. Qed.

(** ** Nothing selected, and a positive total *)

Lemma flaggedOptions_none (fs : list Field) (chk : JSObject.t bool) :
  (forall k, isChecked chk k = false) -> flaggedOptions fs chk = [].
Proof.
  intros H. unfold flaggedOptions.
  induction fs as [|f fs IH]; simpl; [reflexivity|].
  rewrite IH, app_nil_r. unfold flaggedOf.
  destruct (isCheckType f); [|reflexivity].
  induction (optionsOrEmpty f) as [|o os IHo]; simpl; [reflexivity|].
  now rewrite H.
Qed.

Lemma dropdownItem_unset (st : State) (f : Field) :
  JSObject.get (dropAlias f) (dropdownValues st) = None ->
  dropdownItem st f = [].
Proof.
  intros H. rewrite dropdownItem_cases, H. now destruct (type f).
Qed.

Lemma flat_map_nil {A B : Type} (g : A -> list B) (l : list A) :
  (forall a, In a l -> g a = []) -> flat_map g l = [].
Proof.
  induction l as [|a l IH]; simpl; intros H; [reflexivity|].
  rewrite (H a) by auto. apply IH. auto.
Qed.

Lemma dropdownItemRuntime_unset (st : State) (f : Field) :
  dropdownValues st = JSObject.empty ->
  dropdownLabels st = JSObject.empty ->
  dropdownItemRuntime st f = if fallsThrough f then [memberRow f] else [].
Proof.
  intros Hv Hl.
  unfold dropdownItemRuntime, pushDropdownRuntime, fallsThrough, readProperty.
  rewrite Hv, Hl. simpl.
  destruct (type f); try reflexivity.
  now destruct (inheritsMember (dropAlias f)).
Qed.

(** X6.  With no stored dropdown value or label and no flag set, whatever
    the schema, the total is 0 and the only rows are those of the Drop
    Down fields whose alias names a member of [Object.prototype], holding
    that member as item and price; the export is rejected exactly when
    the schema has no such field. *)
Theorem nothing_selected (calc : option CalculatorData) (st : State) :
  dropdownValues st = JSObject.empty ->
  dropdownLabels st = JSObject.empty ->
  (forall k, isChecked (checked st) k = false) ->
  total calc st = zero
  /\ buildSelectionsRuntime calc st
     = map memberRow (filter fallsThrough (fieldsOf calc))
  /\ (somethingSelectedRuntime calc st = false
      <-> filter fallsThrough (fieldsOf calc) = []).
Proof.
  intros Hv Hl Hc.
  assert (Hrows : buildSelectionsRuntime calc st
                  = map memberRow (filter fallsThrough (fieldsOf calc))).
  { rewrite buildSelectionsRuntime_rows, (flaggedOptions_none _ _ Hc). simpl.
    rewrite app_nil_r.
    induction (fieldsOf calc) as [|f fs IH]; simpl; [reflexivity|].
    rewrite IH, (dropdownItemRuntime_unset st f Hv Hl).
    now destruct (fallsThrough f). }
  split; [|split; [exact Hrows|]].
  - rewrite total_sum, (flaggedOptions_none _ _ Hc), Hv. reflexivity.
  - unfold somethingSelectedRuntime. rewrite Hrows, Hv, length_map. simpl.
    rewrite orb_false_r, negb_false_iff, Nat.eqb_eq.
    apply length_zero_iff_nil.
Qed.

Lemma nothing_selected_witness :
  total Examples.quoteCalc initialState = zero
  /\ buildSelectionsRuntime Examples.quoteCalc initialState = []
  /\ somethingSelectedRuntime Examples.quoteCalc initialState = false.
Proof.
  destruct (nothing_selected Examples.quoteCalc initialState
              eq_refl eq_refl (fun k => eq_refl)) as (Ht & Hr & Hg).
  split; [exact Ht|]. split; [exact Hr|]. apply Hg. reflexivity.
Defined.

Lemma binary_round_aux_notPositive (m e : Z) (l : location) :
  gt (binary_round_aux prec emax true m e l) zero = false.
Proof.
  unfold binary_round_aux.
  destruct (shr_fexp prec emax m e l) as [mrs' e'].
  destruct (shr_fexp prec emax _ e' loc_Exact) as [mrs'' e''].
  destruct (shr_m mrs''); try reflexivity.
  now destruct (e'' <=? emax - prec)%Z.
Qed.

Lemma binary_round_notPositive (m : positive) (e : Z) :
  gt (binary_round prec emax true m e) zero = false.
Proof.
  unfold binary_round. destruct (shl_align m e _) as [mz ez].
  apply binary_round_aux_notPositive.
Qed.

(** The sum of two numbers that are not above zero is not above zero. *)
Lemma add_notPositive (a b : number) :
  gt a zero = false -> gt b zero = false -> gt (add a b) zero = false.
Proof.
  intros Ha Hb.
  destruct a as [[]|[]| |[] ma ea]; destruct b as [[]|[]| |[] mb eb];
    try discriminate; try reflexivity.
  unfold add, SFadd, binary_normalize, cond_Zopp.
  match goal with
  | |- context [(- Z.pos ?x + - Z.pos ?y)%Z] =>
      replace (- Z.pos x + - Z.pos y)%Z with (Z.neg (x + y)) by lia
  end.
  apply binary_round_notPositive.
Qed.

Lemma sumFrom_notPositive (xs : list number) (init : number) :
  gt init zero = false ->
  Forall (fun x => gt x zero = false) xs ->
  gt (sumFrom init xs) zero = false.
Proof.
  revert init. induction xs as [|x xs IH]; intros init Hi Hx; [exact Hi|].
  inversion Hx as [|? ? H1 H2]. subst.
  apply (IH (add init x)); [|exact H2]. now apply add_notPositive.
Qed.

Lemma orZero_notPositive (v : number) :
  gt v zero = false -> gt (orZero v) zero = false.
Proof. unfold orZero. now destruct (truthy v). Qed.

(** X7.  Whenever the total is above zero the export goes ahead: a
    rejected export always has a total that is not above zero. *)
Theorem positive_total_is_exported (calc : option CalculatorData) (st : State) :
  gt (total calc st) zero = true ->
  saved (handleDownloadPdf calc st).
Proof.
  intros Hpos. unfold saved.
  destruct (handleDownloadPdf_cases calc st) as [[Hs _]|[_ ->]];
    [|simpl; eauto].
  exfalso. apply somethingSelected_false in Hs. destruct Hs as [Hrows Hvals].
  rewrite buildSelections_rows in Hrows.
  apply app_eq_nil in Hrows. destruct Hrows as [_ Hflag].
  apply map_eq_nil in Hflag.
  rewrite total_sum, Hflag in Hpos. simpl in Hpos. rewrite app_nil_r in Hpos.
  rewrite sumFrom_notPositive in Hpos; [discriminate | reflexivity |].
  apply Forall_map. eapply Forall_impl; [|exact Hvals].
  intros v H. cbv beta. now apply orZero_notPositive.
Qed.

Lemma positive_total_is_exported_witness :
  saved (handleDownloadPdf Examples.quoteCalc
           (onChangeDropdown Examples.travelField "500" initialState)).
Proof.
  apply (positive_total_is_exported Examples.quoteCalc
           (onChangeDropdown Examples.travelField "500" initialState)).
  vm_compute. reflexivity.
Defined.

(** ** Prices *)

Lemma orZero_not_NaN (x : number) : isNaN (orZero x) = false.
Proof. now destruct x as [[]|[]| |[] m e]. Qed.

(** X8.  [toNum] never returns [NaN] and never [-0], and applying it to
    its own result changes nothing. *)
Theorem toNum_is_clean (v : NumArg) :
  isNaN (toNum v) = false
  /\ toNum v <> negZero
  /\ toNum (Num (toNum v)) = toNum v.
Proof.
  unfold toNum.
  destruct (match v with
            | Undefined => numberOrZero None
            | Str s => numberOrZero (Some s)
            | Num n => n
            end) as [[]|[]| |[] m e]; repeat split; discriminate.
Qed.

(** X9.  The price of every row is a number other than [NaN]; the one
    exception is the row of a Drop Down field whose alias names a member
    of [Object.prototype] and has no stored value, whose price is that
    inherited member. *)
Theorem rows_have_numeric_prices (calc : option CalculatorData) (st : State)
  (r : RuntimeRow) :
  In r (buildSelectionsRuntime calc st) ->
  match rowPrice r with
  | Declared v => isNaN v = false
  | Member m =>
      inheritsMember m = true
      /\ JSObject.get m (dropdownValues st) = None
      /\ exists f, In f (fieldsOf calc) /\ type f = DropDown
                   /\ dropAlias f = m
  end.
Proof.
  rewrite buildSelectionsRuntime_rows, map_map, in_app_iff, in_flat_map,
          in_map_iff.
  intros [(f & Hf & Hr)|(fo & <- & _)].
  - unfold dropdownItemRuntime, pushDropdownRuntime, readProperty in Hr.
    destruct (type f) eqn:Ty; try contradiction.
    destruct (JSObject.get (dropAlias f) (dropdownValues st)) as [v|] eqn:Gv.
    + simpl in Hr. destruct (truthy v) eqn:Tv; [|contradiction].
      destruct (truthyLabel _); [|contradiction].
      destruct Hr as [<-|[]]. simpl. now destruct v.
    + destruct (inheritsMember (dropAlias f)) eqn:Im; [|contradiction].
      simpl in Hr. destruct (truthyLabel _); [|contradiction].
      destruct Hr as [<-|[]]. simpl. eauto 6.
  - simpl. unfold amountOf, toNum. apply orZero_not_NaN.
Qed.

Lemma rows_have_numeric_prices_witness :
  isNaN (StringToNumber "75") = false.
Proof.
  apply (rows_have_numeric_prices Examples.quoteCalc Examples.businessInsured
           (mkRuntimeRow "Extras" (Declared "Insurance")
              (Declared (StringToNumber "75")))).
  vm_compute. right. left. reflexivity.
Defined.

(** ** Fields that take no part *)

Lemma flat_map_filter_idle {A B : Type} (g : A -> list B) (p : A -> bool)
  (l : list A) :
  (forall a, p a = false -> g a = []) ->
  flat_map g (filter p l) = flat_map g l.
Proof.
  intros H. induction l as [|a l IH]; simpl; [reflexivity|].
  destruct (p a) eqn:E; simpl; rewrite IH; [reflexivity|].
  now rewrite (H a E).
Qed.

(** X10.  Line fields take no part in the computation: a schema with its
    Line fields removed has the same total and the same rows. *)
Theorem dividers_contribute_nothing (calc calc' : option CalculatorData)
  (st : State) :
  fieldsOf calc' = filter (fun f => negb (isLine f)) (fieldsOf calc) ->
  total calc' st = total calc st
  /\ buildSelections calc' st = buildSelections calc st.
Proof.
  intros H. rewrite !total_sum, !buildSelections_rows, H.
  unfold flaggedOptions.
  rewrite (flat_map_filter_idle (flaggedOf (checked st))),
          (flat_map_filter_idle (dropdownItem st)).
  - split; reflexivity.
  - intros f Hf. apply negb_false_iff in Hf. unfold isLine in Hf.
    rewrite dropdownItem_cases. now destruct (type f).
  - intros f Hf. apply negb_false_iff in Hf. unfold isLine in Hf.
    unfold flaggedOf, isCheckType. now destruct (type f).
Qed.

Lemma dividers_contribute_nothing_witness :
  total MoreExamples.sizeCalcNoLine
    (onChangeDropdown MoreExamples.sizeField "10" initialState)
  = total MoreExamples.sizeCalc
      (onChangeDropdown MoreExamples.sizeField "10" initialState)
  /\ buildSelections MoreExamples.sizeCalcNoLine
       (onChangeDropdown MoreExamples.sizeField "10" initialState)
     = buildSelections MoreExamples.sizeCalc
         (onChangeDropdown MoreExamples.sizeField "10" initialState).
Proof.
  apply (dividers_contribute_nothing MoreExamples.sizeCalc
           MoreExamples.sizeCalcNoLine).
  reflexivity.
Defined.

(** ** Ticking and clearing a box *)

Lemma flaggedOf_In (chk : JSObject.t bool) (f f' : Field) (o : Option) :
  In (f', o) (flaggedOf chk f)
  <-> f' = f /\ isCheckType f = true /\ In o (optionsOrEmpty f)
      /\ isChecked chk (flagKey f o) = true.
Proof.
  unfold flaggedOf. destruct (isCheckType f).
  - rewrite in_map_iff. split.
    + intros (o' & [= <- <-] & Hin). apply filter_In in Hin. tauto.
    + intros (-> & _ & Hin & Hk). exists o. split; [reflexivity|].
      apply filter_In. tauto.
  - simpl. split; [tauto | intros (_ & H & _); discriminate].
Qed.

Lemma flaggedOptions_In (fs : list Field) (chk : JSObject.t bool)
  (f : Field) (o : Option) :
  In (f, o) (flaggedOptions fs chk)
  <-> In f fs /\ isCheckType f = true /\ In o (optionsOrEmpty f)
      /\ isChecked chk (flagKey f o) = true.
Proof.
  unfold flaggedOptions. rewrite in_flat_map. split.
  - intros (f0 & Hf & Hin). apply flaggedOf_In in Hin.
    destruct Hin as (-> & H). tauto.
  - intros (Hf & H). exists f. split; [exact Hf|]. apply flaggedOf_In. tauto.
Qed.

(** X11.  Ticking a box of a Toggle or Checkbox field of the schema puts
    the row of that option among the rows, with the parsed amount as its
    price, and removes no row that was there. *)
Theorem ticking_adds_the_row (calc : option CalculatorData) (st : State)
  (f : Field) (o : Option) :
  In f (fieldsOf calc) -> isCheckType f = true -> In o (optionsOrEmpty f) ->
  In (mkRow (label f) (optionText o) (toNum (Str (optionValue o))))
     (buildSelections calc (onChangeCheckbox f o true st))
  /\ (forall r, In r (buildSelections calc st) ->
                In r (buildSelections calc (onChangeCheckbox f o true st))).
Proof.
  intros Hf Hc Ho. rewrite !buildSelections_rows. split.
  - apply in_or_app. right. apply (in_map rowOf _ (f, o)).
    apply flaggedOptions_In. repeat split; auto.
    unfold onChangeCheckbox. cbn [checked]. apply isChecked_set_same.
  - intros r Hr. apply in_app_or in Hr. apply in_or_app.
    destruct Hr as [Hr|Hr]; [left; exact Hr | right].
    apply in_map_iff in Hr. destruct Hr as ([f' o'] & <- & Hin).
    apply in_map. apply flaggedOptions_In in Hin. apply flaggedOptions_In.
    destruct Hin as (H1 & H2 & H3 & H4). repeat split; auto.
    unfold onChangeCheckbox. cbn [checked].
    destruct (String.eqb (flagKey f o) (flagKey f' o')) eqn:E.
    + apply String.eqb_eq in E. rewrite <- E. apply isChecked_set_same.
    + apply String.eqb_neq in E. now rewrite isChecked_set_other.
Qed.

Lemma ticking_adds_the_row_witness :
  In (mkRow "Extras" "Insurance" (toNum (Str "75")))
     (buildSelections Examples.quoteCalc
        (onChangeCheckbox Examples.extrasField Examples.insurance true
           initialState)).
Proof.
  refine (proj1 (ticking_adds_the_row Examples.quoteCalc initialState
                   Examples.extrasField Examples.insurance _ _ _)).
  - simpl. right. left. reflexivity.
  - reflexivity.
  - simpl. left. reflexivity.
Defined.

Lemma filter_map_pair {A B : Type} (p : A * B -> bool) (a : A) (l : list B) :
  filter p (map (pair a) l) = map (pair a) (filter (fun b => p (a, b)) l).
Proof.
  induction l as [|b l IH]; simpl; [reflexivity|].
  destruct (p (a, b)); simpl; now rewrite IH.
Qed.

Lemma filter_filter {A : Type} (p q : A -> bool) (l : list A) :
  filter p (filter q l) = filter (fun a => q a && p a) l.
Proof.
  induction l as [|a l IH]; simpl; [reflexivity|].
  destruct (q a); simpl; [destruct (p a)|]; now rewrite IH.
Qed.

Lemma filter_flat_map {A B : Type} (p : B -> bool) (g : A -> list B)
  (l : list A) :
  filter p (flat_map g l) = flat_map (fun a => filter p (g a)) l.
Proof.
  induction l as [|a l IH]; simpl; [reflexivity|].
  now rewrite filter_app, IH.
Qed.

(** X12.  Clearing a box removes exactly the rows of the options under
    its key, in every field, and leaves the other rows as they are and in
    their order. *)
Theorem clearing_removes_the_key (calc : option CalculatorData) (st : State)
  (f : Field) (o : Option) :
  buildSelections calc (onChangeCheckbox f o false st)
  = flat_map (dropdownItem st) (fieldsOf calc)
    ++ map rowOf
         (filter (fun fo => negb (String.eqb (keyOf fo) (flagKey f o)))
                 (flaggedOptions (fieldsOf calc) (checked st))).
Proof.
  rewrite buildSelections_rows. f_equal. f_equal.
  unfold flaggedOptions. rewrite filter_flat_map.
  apply flat_map_ext. intros f'. unfold flaggedOf.
  destruct (isCheckType f'); [|reflexivity].
  rewrite filter_map_pair, filter_filter. f_equal.
  apply filter_ext. intros o'. unfold keyOf. simpl.
  unfold onChangeCheckbox. cbn [checked].
  destruct (String.eqb (flagKey f' o') (flagKey f o)) eqn:E.
  - apply String.eqb_eq in E. rewrite E, isChecked_set_same.
    now rewrite andb_false_r.
  - apply String.eqb_neq in E.
    rewrite isChecked_set_other by congruence. now rewrite andb_true_r.
Qed.

Lemma buildSelections_ext_checked (calc : option CalculatorData)
  (st st' : State) :
  dropdownValues st' = dropdownValues st ->
  dropdownLabels st' = dropdownLabels st ->
  (forall k, isChecked (checked st') k = isChecked (checked st) k) ->
  buildSelections calc st' = buildSelections calc st.
Proof.
  intros Hv Hl Hc. rewrite !buildSelections_rows.
  rewrite (flaggedOptions_ext _ _ _ Hc). f_equal.
  apply flat_map_ext. intros f. now rewrite !dropdownItem_cases, Hv, Hl.
Qed.

(** X13.  Two clicks on one checkbox, from any state, give back the total
    and the rows there were before the first. *)
Theorem two_clicks_restore_the_quote (calc : option CalculatorData)
  (f : Field) (o : Option) (st : State) :
  total calc (clickCheckbox f o (clickCheckbox f o st)) = total calc st
  /\ buildSelections calc (clickCheckbox f o (clickCheckbox f o st))
     = buildSelections calc st.
Proof.
  split.
  - apply total_ext_checked; [reflexivity | apply click_twice_reads].
  - apply buildSelections_ext_checked;
      [reflexivity | reflexivity | apply click_twice_reads].
Qed.

(** ** Selecting in a dropdown *)

Lemma dropdownItem_after_select (f f' : Field) (raw : string) (st : State) :
  type f' = DropDown -> dropAlias f' = dropAlias f ->
  dropdownItem (onChangeDropdown f raw st) f'
  = if truthy (StringToNumber raw)
       && negb (String.eqb (matchingText f raw) "")
    then [mkRow (label f') (matchingText f raw) (StringToNumber raw)]
    else [].
Proof.
  intros Ht Ha. rewrite dropdownItem_cases, Ht, Ha.
  rewrite onChangeDropdown_text, get_set_same.
  unfold onChangeDropdown. cbn [dropdownValues].
  now rewrite get_set_same, numberOrZero_Some.
Qed.

(** X14.  Choosing the placeholder, or any value that converts to 0 or to
    [NaN], leaves the field without a dropdown row. *)
Theorem zero_selection_has_no_row (f : Field) (raw : string) (st : State) :
  type f = DropDown ->
  truthy (StringToNumber raw) = false ->
  dropdownItem (onChangeDropdown f raw st) f = [].
Proof.
  intros Ht Hz. rewrite (dropdownItem_after_select f f raw st Ht eq_refl).
  now rewrite Hz.
Qed.

Lemma zero_selection_has_no_row_witness :
  dropdownItem
    (onChangeDropdown Examples.travelField ""
       (onChangeDropdown Examples.travelField "500" initialState))
    Examples.travelField
  = [].
Proof.
  apply (zero_selection_has_no_row Examples.travelField ""); reflexivity.
Defined.

(** X15.  Selecting, in a Drop Down field of the schema, an option with a
    text and an amount other than zero puts the row of that field among
    the rows: its item is the text of the option and its price the
    amount. *)
Theorem selection_gives_the_row (calc : option CalculatorData) (f : Field)
  (o : Option) (raw : string) (st : State) :
  In f (fieldsOf calc) -> type f = DropDown ->
  find (fun o => String.eqb (optionValue o) raw) (optionsOrEmpty f) = Some o ->
  optionText o <> "" ->
  truthy (StringToNumber raw) = true ->
  In (mkRow (label f) (optionText o) (StringToNumber raw))
     (buildSelections calc (onChangeDropdown f raw st)).
Proof.
  intros Hf Ht Hfind Htext Hnum.
  rewrite buildSelections_rows. apply in_or_app. left.
  apply in_flat_map. exists f. split; [exact Hf|].
  rewrite (dropdownItem_after_select f f raw st Ht eq_refl), Hnum.
  unfold matchingText. rewrite Hfind.
  apply String.eqb_neq in Htext. rewrite Htext. simpl. auto.
Qed.

Lemma selection_gives_the_row_witness :
  In (mkRow "Travel" "Business" (StringToNumber "500"))
     (buildSelections Examples.quoteCalc
        (onChangeDropdown Examples.travelField "500" initialState)).
Proof.
  apply (selection_gives_the_row Examples.quoteCalc Examples.travelField
           Examples.business "500" initialState).
  - simpl. left. reflexivity.
  - reflexivity.
  - reflexivity.
  - discriminate.
  - reflexivity.
Defined.

(** X16.  When two options of a field have the same [optionValue],
    selecting the later one stores the text of the earlier one: the label
    kept for the quote is the text of the first option with that value. *)
Theorem duplicate_value_takes_first_text (f : Field) (o1 o2 : Option)
  (before between after : list Option) (st : State) :
  options f = Some (before ++ o1 :: between ++ o2 :: after) ->
  optionValue o1 = optionValue o2 ->
  (forall o, In o before -> optionValue o <> optionValue o2) ->
  JSObject.get (dropAlias f)
    (dropdownLabels (onChangeDropdown f (optionValue o2) st))
  = Some (optionText o1).
Proof.
  intros Ho Hv Hb. rewrite onChangeDropdown_text, get_set_same. f_equal.
  unfold matchingText, optionsOrEmpty. rewrite Ho. clear Ho.
  induction before as [|b before IH]; simpl.
  - now rewrite Hv, String.eqb_refl.
  - rewrite (proj2 (String.eqb_neq _ _) (Hb b (or_introl eq_refl))).
    apply IH. intros o Hin. apply Hb. now right.
Qed.

Lemma duplicate_value_takes_first_text_witness :
  JSObject.get "size"
    (dropdownLabels
       (onChangeDropdown MoreExamples.sizeField
          (optionValue MoreExamples.compact) initialState))
  = Some "Small".
Proof.
  apply (duplicate_value_takes_first_text MoreExamples.sizeField
           MoreExamples.small MoreExamples.compact [] [] [] initialState).
  - reflexivity.
  - reflexivity.
  - intros o [].
Defined.

(** X17.  Drop Down fields with the same alias share one stored
    selection: after a selection made in one of them, the other has the
    same dropdown row under its own label. *)
Theorem dropdowns_share_their_alias (f1 f2 : Field) (raw : string)
  (st : State) :
  type f1 = DropDown -> type f2 = DropDown -> dropAlias f1 = dropAlias f2 ->
  dropdownItem (onChangeDropdown f1 raw st) f2
  = map (fun r => mkRow (label f2) (item r) (price r))
        (dropdownItem (onChangeDropdown f1 raw st) f1).
Proof.
  intros H1 H2 Ha.
  rewrite (dropdownItem_after_select f1 f2 raw st H2 (eq_sym Ha)).
  rewrite (dropdownItem_after_select f1 f1 raw st H1 eq_refl).
  now destruct (truthy _ && negb _).
Qed.

Lemma dropdowns_share_their_alias_witness :
  dropdownItem (onChangeDropdown MoreExamples.sizeField "10" initialState)
    MoreExamples.sizeAgain
  = [mkRow "Size (again)" "Small" (StringToNumber "10")].
Proof.
  rewrite (dropdowns_share_their_alias MoreExamples.sizeField
             MoreExamples.sizeAgain "10" initialState
             eq_refl eq_refl eq_refl).
  vm_compute. reflexivity.
Defined.

(** ** Flag keys *)

Lemma colon_split (a1 a2 t1 t2 : string) :
  hasChar ":" a1 = false -> hasChar ":" a2 = false ->
  (a1 ++ ":" ++ t1 = a2 ++ ":" ++ t2)%string ->
  a1 = a2 /\ t1 = t2.
Proof.
  unfold hasChar. revert a2.
  induction a1 as [|c a1 IH]; intros [|d a2]; simpl; intros H1 H2 E.
  - now injection E.
  - injection E as E1 E2. subst d. discriminate.
  - injection E as E1 E2. subst c. discriminate.
  - injection E as E1 E2. subst d.
    apply orb_false_iff in H1, H2.
    destruct (IH a2 (proj2 H1) (proj2 H2) E2) as [-> ->]. auto.
Qed.

(** X18.  As long as no alias contains a colon, two flag keys are equal
    only for equal aliases (as printed) and equal option texts. *)
Theorem flagKey_is_unambiguous (f1 f2 : Field) (o1 o2 : Option) :
  hasChar ":" (printedAlias f1) = false ->
  hasChar ":" (printedAlias f2) = false ->
  flagKey f1 o1 = flagKey f2 o2 ->
  printedAlias f1 = printedAlias f2 /\ optionText o1 = optionText o2.
Proof.
  intros H1 H2 E. now apply colon_split.
Qed.

Lemma flagKey_is_unambiguous_witness :
  printedAlias Examples.printing = printedAlias Examples.shipping
  /\ optionText Examples.rush10 = optionText Examples.rush20.
Proof.
  apply (flagKey_is_unambiguous Examples.printing Examples.shipping
           Examples.rush10 Examples.rush20); reflexivity.
Defined.

(** ** Values and labels stay in step *)

Lemma existsb_keys {V : Type} (k : string) (o : JSObject.t V) :
  existsb (String.eqb k) (keysOf o)
  = match JSObject.get k o with Some _ => true | None => false end.
Proof.
  induction o as [|[k' v] r IH]; simpl; [reflexivity|].
  rewrite (String.eqb_sym k k'). now destruct (String.eqb k' k).
Qed.

Lemma keysOf_replace {V : Type} (k : string) (v : V) (o : JSObject.t V) :
  keysOf (JSObject.replace k v o) = keysOf o.
Proof.
  induction o as [|[k' v'] r IH]; simpl; [reflexivity|].
  destruct (String.eqb k' k) eqn:E; simpl.
  - apply String.eqb_eq in E. now subst.
  - now rewrite IH.
Qed.

Lemma keysOf_insertIndex {V : Type} (i : N) (k : string) (v : V)
  (o : JSObject.t V) :
  keysOf (JSObject.insertIndex i k v o) = insertKey i k (keysOf o).
Proof.
  induction o as [|[k' v'] r IH]; simpl; [reflexivity|].
  destruct (JSObject.arrayIndex k') as [j|]; [destruct (j <? i)%N|]; simpl;
    now rewrite ?IH.
Qed.

(** The keys after a write only depend on the keys before it. *)
Lemma keysOf_set {V : Type} (k : string) (v : V) (o : JSObject.t V) :
  keysOf (JSObject.set k v o) = setKey k (keysOf o).
Proof.
  unfold JSObject.set, setKey. rewrite existsb_keys.
  destruct (JSObject.get k o).
  - apply keysOf_replace.
  - destruct (JSObject.arrayIndex k).
    + apply keysOf_insertIndex.
    + unfold keysOf. now rewrite map_app.
Qed.

(** X19.  In every state the handlers can produce, the stored dropdown
    values and the stored labels have the same keys in the same order: a
    value is stored for an alias exactly when a label is. *)
Theorem labels_stay_in_step (st : State) :
  Reachable st ->
  keysOf (dropdownValues st) = keysOf (dropdownLabels st).
Proof.
  induction 1 as [|f value st _ IH|f o b st _ IH].
  - reflexivity.
  - rewrite onChangeDropdown_text. unfold onChangeDropdown.
    cbn [dropdownValues]. now rewrite !keysOf_set, IH.
  - exact IH.
Qed.

Lemma labels_stay_in_step_witness :
  keysOf (dropdownValues Examples.businessWithLoyalty)
  = keysOf (dropdownLabels Examples.businessWithLoyalty).
Proof.
  apply (labels_stay_in_step Examples.businessWithLoyalty).
  apply reach_checkbox, reach_dropdown, reach_initial.
Defined.

(** ** The two variants and the degraded view *)

(** X20.  The older variant and the current one show the view without
    calculator for exactly the same roots: no [calculators], an empty one,
    or a first calculator without [ccb_fields]. *)
Theorem variants_degrade_alike (ccbRoot : CcbRoot) (st : State) :
  (olderDegraded ccbRoot = true
   <-> render (calculator ccbRoot) st = NoCalculatorFound)
  /\ (olderDegraded ccbRoot = true
      <-> calculators ccbRoot = None \/ calculators ccbRoot = Some []
          \/ exists c cs, calculators ccbRoot = Some (c :: cs)
                          /\ ccb_fields c = None).
Proof.
  unfold olderDegraded, Older.calculator, render, calculator.
  destruct (calculators ccbRoot) as [[|c cs]|]; simpl.
  - split; split; auto.
  - destruct (ccb_fields c) eqn:E; split; split; try discriminate; auto.
    + intros [H|[H|(c' & cs' & [= <- <-] & H)]]; congruence.
    + intros _. right. right. eauto.
  - split; split; auto.
Qed.

(** X21.  In the older variant one ticked option whose amount converts
    to [NaN] makes the shown total [NaN], whatever else is selected. *)
Theorem older_total_is_poisoned (ccbRoot : CcbRoot)
  (ost : OlderHandlers.State) :
  Exists (fun fo => isNaN (rawAmountOf fo) = true)
         (flaggedOptions (Older.fieldsOf (Older.calculator ccbRoot))
            (OlderHandlers.checked ost)) ->
  OlderHandlers.shownTotal ccbRoot ost = NaN.
Proof.
  intros H. unfold OlderHandlers.shownTotal. rewrite Older_total_sum.
  apply sumFrom_In_NaN. apply in_or_app. right.
  apply Exists_exists in H. destruct H as (fo & Hin & Hn).
  replace NaN with (rawAmountOf fo)
    by (destruct (rawAmountOf fo); try discriminate; reflexivity).
  now apply in_map.
Qed.

Lemma older_total_is_poisoned_witness :
  OlderHandlers.shownTotal Examples.mysteryRoot
    (OlderHandlers.onChangeCheckbox Examples.mysteryCheck Examples.mystery
       true
       (OlderHandlers.onChangeDropdown Examples.travelField "500"
          OlderHandlers.initialState))
  = NaN.
Proof.
  apply (older_total_is_poisoned Examples.mysteryRoot).
  apply Exists_cons_hd. reflexivity.
Defined.

(** ** The rendered form *)

(** X22.  After a change of a checkbox of the schema, the form shows the
    box of that option with the value the event carried. *)
Theorem rendered_box_shows_the_change (c : CalculatorData) (fs : list Field)
  (f : Field) (o : Option) (b : bool) (st : State) :
  ccb_fields c = Some fs -> In f fs ->
  isCheckType f = true -> In o (optionsOrEmpty f) ->
  exists boxes,
    In (CheckGroup (_id f) boxes)
       (controlsOf (render (Some c) (onChangeCheckbox f o b st)))
    /\ In (flagKey f o, b) boxes
    /\ hasSubmit (render (Some c) (onChangeCheckbox f o b st)) = true.
Proof.
  intros Hfs Hf Hc Ho. unfold render. rewrite Hfs. simpl.
  exists (map (fun o' =>
                 (flagKey f o',
                  isChecked (checked (onChangeCheckbox f o b st))
                            (flagKey f o')))
              (optionsOrEmpty f)).
  split; [|split; [|reflexivity]].
  - apply in_map_iff. exists f. split; [|exact Hf].
    unfold renderField. unfold isCheckType in Hc.
    destruct (type f); try discriminate; reflexivity.
  - apply in_map_iff. exists o. split; [|exact Ho].
    unfold onChangeCheckbox. cbn [checked].
    now rewrite isChecked_set_same.
Qed.

Lemma rendered_box_shows_the_change_witness :
  exists boxes,
    In (CheckGroup 2 boxes)
       (controlsOf
          (render Examples.quoteCalc
             (onChangeCheckbox Examples.extrasField Examples.insurance true
                initialState)))
    /\ In ("insurance:Insurance", true) boxes.
Proof.
  destruct (rendered_box_shows_the_change
              (mkCalculatorData (Some "Trip")
                 (Some [Examples.travelField; Examples.extrasField]))
              [Examples.travelField; Examples.extrasField]
              Examples.extrasField Examples.insurance true initialState
              eq_refl (or_intror (or_introl eq_refl)) eq_refl
              (or_introl eq_refl)) as (boxes & H1 & H2 & _).
  exists boxes. split; [exact H1 | exact H2].
Defined.

(** ** The two variants, event by event *)

Lemma variants_in_step (evs : list Event) :
  forall (st : State) (ost : OlderHandlers.State),
    OlderHandlers.dropdownValues ost = dropdownValues st ->
    OlderHandlers.checked ost = checked st ->
    OlderHandlers.dropdownValues (fold_left OlderHandlers.handle evs ost)
    = dropdownValues (fold_left handle evs st)
    /\ OlderHandlers.checked (fold_left OlderHandlers.handle evs ost)
       = checked (fold_left handle evs st).
Proof.
  induction evs as [|ev evs IH]; intros st ost Hv Hc; [now split|].
  simpl. apply IH; destruct ev; simpl; congruence.
Qed.

Lemma Reachable_run (evs : list Event) (st : State) :
  Reachable st -> Reachable (fold_left handle evs st).
Proof.
  revert st. induction evs as [|ev evs IH]; intros st H; [exact H|].
  simpl. apply IH. destruct ev; now constructor.
Qed.

(** X23.  Fed the same changes from their initial states, the older and
    the current variant hold the same values and the same flags, and they
    show the same total unless an option whose amount converts to [NaN]
    is ticked. *)
Theorem variants_run_alike (ccbRoot : CcbRoot) (evs : list Event) :
  OlderHandlers.dropdownValues
    (fold_left OlderHandlers.handle evs OlderHandlers.initialState)
  = dropdownValues (fold_left handle evs initialState)
  /\ OlderHandlers.checked
       (fold_left OlderHandlers.handle evs OlderHandlers.initialState)
     = checked (fold_left handle evs initialState)
  /\ (Forall (fun fo => isNaN (rawAmountOf fo) = false)
             (flaggedOptions (fieldsOf (calculator ccbRoot))
                (checked (fold_left handle evs initialState))) ->
      OlderHandlers.shownTotal ccbRoot
        (fold_left OlderHandlers.handle evs OlderHandlers.initialState)
      = total (calculator ccbRoot) (fold_left handle evs initialState)).
Proof.
  destruct (variants_in_step evs initialState OlderHandlers.initialState
              eq_refl eq_refl) as [Hv Hc].
  split; [exact Hv|]. split; [exact Hc|].
  intros Hf. unfold OlderHandlers.shownTotal. rewrite Hv, Hc.
  apply totals_agree; [|exact Hf].
  apply reachable_exponentOk, Reachable_run. constructor.
Qed.

(** ** A selection that counts as nothing *)

Lemma mapValues_get {V W : Type} (g : V -> W) (k : string) (o : JSObject.t V) :
  JSObject.get k (mapValues g o) = option_map g (JSObject.get k o).
Proof.
  induction o as [|[k' v] r IH]; simpl; [reflexivity|].
  now destruct (String.eqb k' k).
Qed.

Lemma mapValues_set {V W : Type} (g : V -> W) (k : string) (v : V)
  (o : JSObject.t V) :
  mapValues g (JSObject.set k v o) = JSObject.set k (g v) (mapValues g o).
Proof.
  unfold JSObject.set. rewrite mapValues_get.
  destruct (JSObject.get k o); simpl.
  - induction o as [|[k' v'] r IH]; simpl; [reflexivity|].
    destruct (String.eqb k' k); simpl; [reflexivity | now rewrite IH].
  - destruct (JSObject.arrayIndex k) as [i|].
    + induction o as [|[k' v'] r IH]; simpl; [reflexivity|].
      destruct (JSObject.arrayIndex k') as [j|]; [destruct (j <? i)%N|];
        simpl; now rewrite ?IH.
    + unfold mapValues. now rewrite map_app.
Qed.

Lemma values_mapValues {V W : Type} (g : V -> W) (o : JSObject.t V) :
  JSObject.values (mapValues g o) = map g (JSObject.values o).
Proof.
  unfold JSObject.values, mapValues. rewrite !map_map. reflexivity.
Qed.

(** X24.  A selection whose value converts to 0, [-0] or [NaN] gives the
    total that choosing the placeholder gives. *)
Theorem falsy_selection_totals_like_placeholder
  (calc : option CalculatorData) (f : Field) (raw : string) (st : State) :
  truthy (StringToNumber raw) = false ->
  total calc (onChangeDropdown f raw st)
  = total calc (onChangeDropdown f "" st).
Proof.
  intros Hz. rewrite !total_sum. f_equal. f_equal.
  unfold onChangeDropdown. cbn [dropdownValues].
  rewrite <- !values_mapValues, !mapValues_set. do 2 f_equal.
  rewrite numberOrZero_Some. now rewrite (orZero_falsy _ Hz).
Qed.

Lemma falsy_selection_totals_like_placeholder_witness :
  total (calculator Examples.mysteryRoot)
    (onChangeDropdown Examples.mysteryDrop "abc" initialState)
  = total (calculator Examples.mysteryRoot)
      (onChangeDropdown Examples.mysteryDrop "" initialState).
Proof.
  apply (falsy_selection_totals_like_placeholder
           (calculator Examples.mysteryRoot) Examples.mysteryDrop "abc").
  reflexivity.
Defined.

(** ** Where rows start *)

Lemma roundCalls_start (env : PdfEnv) (y : number) (r : Row) :
  Forall (rowStartOk env) (roundCalls env y r).
Proof.
  unfold roundCalls, headerAgain.
  destruct (needsPageBreak env y) eqn:E; simpl;
    repeat (apply Forall_cons; [simpl; auto|]); apply Forall_nil.
Qed.

Lemma drawRows_start (env : PdfEnv) (rows : list Row) :
  forall (y : number) (cs : list DocCall),
    Forall (rowStartOk env) cs ->
    Forall (rowStartOk env) (snd (fold_left (drawRow env) rows (y, cs))).
Proof.
  induction rows as [|r rows IH]; intros y cs H; [exact H|].
  cbn [fold_left]. rewrite drawRow_appends. apply IH.
  apply Forall_app. split; [exact H | apply roundCalls_start].
Qed.

(** X25.  Every row is drawn at a height where no page break was due, or
    as the first row under the header of a fresh page: the three texts of
    a row are never started below the break line of a page that already
    holds rows. *)
Theorem pdf_rows_start_above_the_break (env : PdfEnv)
  (calc : option CalculatorData) (rows : list Row) (shown : number) :
  Forall (rowStartOk env) (drawQuote env calc rows shown).
Proof.
  unfold drawQuote.
  pose proof (drawRows_start env rows (fst (firstPage env calc))
                (snd (firstPage env calc))) as H.
  rewrite <- surjective_pairing in H.
  destruct (fold_left (drawRow env) rows (firstPage env calc)) as [y calls].
  apply Forall_app. split.
  - apply H. repeat constructor.
  - unfold footer. repeat constructor.
Qed.

(** ** More worked examples *)

(** Forty ticked options on a letter page: forty rows on two pages, the
    items in order, and the file named after the clock. *)
Example scenario_two_pages :
  List.length (buildSelections PdfExamples.manyCalc PdfExamples.manyTicked)
  = 40%nat
  /\ countPages
       (docCalls (handleDownloadPdfCalls PdfExamples.env
                    PdfExamples.manyCalc PdfExamples.manyTicked))
     = 2%nat
  /\ filenameOf (isoNow PdfExamples.env)
     = "JO-NA_Quote_2026-11-02-14-21-05.pdf"
  /\ fst (firstPage PdfExamples.env PdfExamples.manyCalc) = JSArith.ofZ 100
  /\ fst (pageBreak PdfExamples.env) = JSArith.ofZ 76.
Proof. conjuncts; vm_compute; reflexivity. Qed.

(** A colon in an alias makes keys ambiguous: alias [a:b] with text [c]
    and alias [a] with text [b:c] share their flag. *)
Example scenario_ambiguous_keys :
  flagKey (mkField 1 Checkbox "One" None (Some "a:b") None)
          (mkOption "c" "1" None)
  = flagKey (mkField 2 Checkbox "Two" None (Some "a") None)
            (mkOption "b:c" "2" None).
Proof. reflexivity. Qed.

